(** * Wi-Fi glue layer of the nRF7002-DK firmware (src/wifi/wifi.cpp)

    A shallow embedding of the module's process-wide flags, its event
    handlers and its command surface, together with the properties the
    specification states about them.

    Modelling conventions
    - The file-scope variables of wifi.cpp form the record [globals].
    - Everything the module calls but does not define (the network
      management stack, the kernel timer, the device object, the log) is
      part of [world]: the one-shot [timeout_timer], the device's stored
      Wi-Fi configuration and a chronological [trace] of effects.  Stores
      to the shared flags are traced too, so that "A happens before B"
      is a statement about the trace.
    - [net_mgmt] is an oracle: the return code the stack gives to a
      request.  Events are delivered between commands, or while a command
      sleeps in [ei_sleep]; a schedule lists, sleep by sleep, what the
      environment delivers.  Preemption at other program points is outside
      the model. *)

From Stdlib Require Import ZArith List String Ascii Bool Lia.
Import ListNotations.
Open Scope string_scope.
Open Scope Z_scope.
Open Scope list_scope.

(** ** errno values

    The numeric values of the errno macros live in the C library headers.
    The code only relies on them being positive (ISO C), so the model is
    parametric in them. *)

Class Errno : Set := {
  ENOEXEC : Z;
  EALREADY : Z;
  ETIMEDOUT : Z;
  ENOEXEC_pos : 0 < ENOEXEC;
  EALREADY_pos : 0 < EALREADY;
  ETIMEDOUT_pos : 0 < ETIMEDOUT
}.

(** The values of Zephyr's errno.h. *)
#[export] Instance zephyr_errno : Errno := {|
  ENOEXEC := 8;
  EALREADY := 120;
  ETIMEDOUT := 116;
  ENOEXEC_pos := eq_refl;
  EALREADY_pos := eq_refl;
  ETIMEDOUT_pos := eq_refl
|}.

(** ** Data model *)

(** [static struct { union { struct { connecting:1; disconnecting:1;
    _unused:6 }; uint8_t all; }; } context] *)
Record context_t := {
  connecting : bool;
  disconnecting : bool;
  unused : Z
}.

Record globals := {
  context : context_t;
  scan_result : Z;          (* uint32_t *)
  scan_running : Z;         (* uint8_t *)
  dhcp_configured : bool;
  wifi_connected : bool;
  timed_out : bool
}.

(** C strings: [None] is the NULL pointer. *)
Definition c_string := option string.

Fixpoint strlen (s : string) : Z :=
  match s with
  | EmptyString => 0
  | String c s' => if Ascii.eqb c zero then 0 else 1 + strlen s'
  end.

Definition WIFI_CHANNEL_ANY : Z := 255.

(** From the stack's headers: [SYS_FOREVER_MS], the security type of an
    open network and the management-frame-protection options. *)
Definition SYS_FOREVER_MS : Z := -1.
Definition WIFI_SECURITY_TYPE_NONE : Z := 0.
Inductive wifi_mfp_options := WIFI_MFP_DISABLE | WIFI_MFP_OPTIONAL | WIFI_MFP_REQUIRED.

(** The fields of [struct wifi_connect_req_params] that [cmd_wifi_connect]
    assigns; the two lengths are [uint8_t]. All other fields keep the zero
    of [= { 0 }]. *)
Record wifi_connect_req_params := {
  ssid : c_string;
  ssid_length : Z;
  psk : c_string;
  psk_length : Z;
  channel : Z;
  security : Z;
  mfp : wifi_mfp_options;
  timeout : Z
}.

Definition uint8 (z : Z) : Z := z mod 256.
Definition uint32 (z : Z) : Z := z mod 2 ^ 32.

Inductive net_request :=
| NET_REQUEST_WIFI_SCAN
| NET_REQUEST_WIFI_CONNECT (params : wifi_connect_req_params)
| NET_REQUEST_WIFI_DISCONNECT.

(** Event codes and the payload [cb->info] that comes with each. *)
Inductive event_code :=
| NET_EVENT_WIFI_SCAN_RESULT
| NET_EVENT_WIFI_SCAN_DONE
| NET_EVENT_WIFI_CONNECT_RESULT
| NET_EVENT_WIFI_DISCONNECT_RESULT
| NET_EVENT_WIFI_TWT
| NET_EVENT_WIFI_RAW_SCAN_RESULT
| NET_EVENT_IPV4_DHCP_BOUND
| NET_EVENT_OTHER (code : Z).

Record wifi_scan_result := {
  entry_ssid : string;
  entry_security : Z;
  entry_rssi : Z
}.

Record wifi_status := { status : Z }.

Record net_if_dhcpv4 := { requested_ip : Z }.

Definition info_t (c : event_code) : Set :=
  match c with
  | NET_EVENT_WIFI_SCAN_RESULT => wifi_scan_result
  | NET_EVENT_WIFI_SCAN_DONE
  | NET_EVENT_WIFI_CONNECT_RESULT
  | NET_EVENT_WIFI_DISCONNECT_RESULT => wifi_status
  | NET_EVENT_IPV4_DHCP_BOUND => net_if_dhcpv4
  | _ => unit
  end.

Definition WIFI_SHELL_MGMT_EVENTS : list event_code :=
  [ NET_EVENT_WIFI_SCAN_RESULT; NET_EVENT_WIFI_SCAN_DONE;
    NET_EVENT_WIFI_CONNECT_RESULT; NET_EVENT_WIFI_DISCONNECT_RESULT;
    NET_EVENT_WIFI_TWT; NET_EVENT_WIFI_RAW_SCAN_RESULT ].

(** ** The world around the module *)

Inductive log_level := LOG_LEVEL_DBG | LOG_LEVEL_INF | LOG_LEVEL_WRN | LOG_LEVEL_ERR | EI_PRINTF.

Inductive log_arg :=
| ArgInt (z : Z)
| ArgStr (s : c_string)
| ArgSecurityTxt (sec : Z)      (* wifi_security_txt(sec) *)
| ArgAddr (ip : Z)              (* net_addr_ntop(AF_INET, ip, ...) *)
| ArgEvent (c : event_code).

Inductive var :=
| V_connecting | V_disconnecting | V_context_all
| V_scan_result | V_scan_running
| V_dhcp_configured | V_wifi_connected | V_timed_out.

Inductive callback_id := wifi_shell_mgmt_cb | net_shell_mgmt_cb.

Inductive effect :=
| Store (x : var) (v : Z)
| Log (lvl : log_level) (fmt : string) (args : list log_arg)
| NetMgmt (req : net_request) (rc : Z)
| SetWifiConfig (ssid psk : c_string) (security : Z)
| TimerStart (duration period : Z)
| TimerStop
| Sleep (ms : Z)
| AddEventCallback (cb : callback_id) (mask : list event_code).

Inductive k_timer :=
| TIMER_STOPPED
| TIMER_RUNNING (duration period : Z).

(** Modelled from the spec: the device object (EiDeviceNRF7002DK, not in
    this file) "receives set_wifi_config(ssid, psk, security) as a
    side-effecting call during connect, for persistence"; the model keeps
    the arguments of the last call. *)
Record ei_device := {
  wifi_config : option (c_string * c_string * Z)
}.

Record world := {
  mem : globals;
  timeout_timer : k_timer;
  dev : ei_device;
  trace : list effect
}.

(** Field updates. *)
Definition with_connecting (b : bool) (g : globals) : globals :=
  {| context := {| connecting := b;
                   disconnecting := disconnecting (context g);
                   unused := unused (context g) |};
     scan_result := scan_result g; scan_running := scan_running g;
     dhcp_configured := dhcp_configured g; wifi_connected := wifi_connected g;
     timed_out := timed_out g |}.

Definition with_disconnecting (b : bool) (g : globals) : globals :=
  {| context := {| connecting := connecting (context g);
                   disconnecting := b;
                   unused := unused (context g) |};
     scan_result := scan_result g; scan_running := scan_running g;
     dhcp_configured := dhcp_configured g; wifi_connected := wifi_connected g;
     timed_out := timed_out g |}.

(** [context.all = v]: the byte overlays the three bit-fields; only the
    value zero is ever written. *)
Definition with_context_all (v : Z) (g : globals) : globals :=
  {| context := {| connecting := Z.testbit v 0;
                   disconnecting := Z.testbit v 1;
                   unused := Z.shiftr (uint8 v) 2 |};
     scan_result := scan_result g; scan_running := scan_running g;
     dhcp_configured := dhcp_configured g; wifi_connected := wifi_connected g;
     timed_out := timed_out g |}.

Definition with_scan_result (v : Z) (g : globals) : globals :=
  {| context := context g;
     scan_result := v; scan_running := scan_running g;
     dhcp_configured := dhcp_configured g; wifi_connected := wifi_connected g;
     timed_out := timed_out g |}.

Definition with_scan_running (v : Z) (g : globals) : globals :=
  {| context := context g;
     scan_result := scan_result g; scan_running := v;
     dhcp_configured := dhcp_configured g; wifi_connected := wifi_connected g;
     timed_out := timed_out g |}.

Definition with_dhcp_configured (b : bool) (g : globals) : globals :=
  {| context := context g;
     scan_result := scan_result g; scan_running := scan_running g;
     dhcp_configured := b; wifi_connected := wifi_connected g;
     timed_out := timed_out g |}.

Definition with_wifi_connected (b : bool) (g : globals) : globals :=
  {| context := context g;
     scan_result := scan_result g; scan_running := scan_running g;
     dhcp_configured := dhcp_configured g; wifi_connected := b;
     timed_out := timed_out g |}.

Definition with_timed_out (b : bool) (g : globals) : globals :=
  {| context := context g;
     scan_result := scan_result g; scan_running := scan_running g;
     dhcp_configured := dhcp_configured g; wifi_connected := wifi_connected g;
     timed_out := b |}.

(** ** A state monad over the world *)

Definition M (A : Type) : Type := world -> A * world.

Definition ret {A} (a : A) : M A := fun w => (a, w).

Definition bind {A B} (m : M A) (k : A -> M B) : M B :=
  fun w => let (a, w') := m w in k a w'.

Declare Scope wifi_scope.
Delimit Scope wifi_scope with wifi.
Notation "x <- m ;; k" := (bind m (fun x => k))
  (at level 61, m at next level, right associativity) : wifi_scope.
Notation "m ;; k" := (bind m (fun _ => k))
  (at level 61, right associativity) : wifi_scope.
Open Scope wifi_scope.

Definition exec {A} (m : M A) (w : world) : world := snd (m w).

Definition emit (e : effect) : M unit :=
  fun w => (tt, {| mem := mem w; timeout_timer := timeout_timer w;
                   dev := dev w; trace := trace w ++ [e] |}).

Definition load {A} (f : globals -> A) : M A := fun w => (f (mem w), w).

Definition store (x : var) (v : Z) (upd : globals -> globals) : M unit :=
  fun w => (tt, {| mem := upd (mem w); timeout_timer := timeout_timer w;
                   dev := dev w; trace := trace w ++ [Store x v] |}).

Definition set_connecting (b : bool) := store V_connecting (Z.b2z b) (with_connecting b).
Definition set_disconnecting (b : bool) := store V_disconnecting (Z.b2z b) (with_disconnecting b).
Definition set_context_all (v : Z) := store V_context_all v (with_context_all v).
Definition set_scan_result (v : Z) := store V_scan_result v (with_scan_result v).
Definition set_scan_running (v : Z) := store V_scan_running v (with_scan_running v).
Definition set_dhcp_configured (b : bool) := store V_dhcp_configured (Z.b2z b) (with_dhcp_configured b).
Definition set_wifi_connected (b : bool) := store V_wifi_connected (Z.b2z b) (with_wifi_connected b).
Definition set_timed_out (b : bool) := store V_timed_out (Z.b2z b) (with_timed_out b).

Definition LOG_DBG fmt args := emit (Log LOG_LEVEL_DBG fmt args).
Definition LOG_INF fmt args := emit (Log LOG_LEVEL_INF fmt args).
Definition LOG_WRN fmt args := emit (Log LOG_LEVEL_WRN fmt args).
Definition LOG_ERR fmt args := emit (Log LOG_LEVEL_ERR fmt args).
Definition ei_printf fmt args := emit (Log EI_PRINTF fmt args).

(** Kernel timer: [k_timer_start] (re)arms it, [k_timer_stop] disarms it. *)
Definition K_SECONDS (s : Z) : Z := s * 1000.
Definition K_NO_WAIT : Z := 0.

Definition set_timer (t : k_timer) : M unit :=
  fun w => (tt, {| mem := mem w; timeout_timer := t;
                   dev := dev w; trace := trace w |}).

Definition k_timer_start (duration period : Z) : M unit :=
  set_timer (TIMER_RUNNING duration period) ;; emit (TimerStart duration period).

Definition k_timer_stop : M unit :=
  set_timer TIMER_STOPPED ;; emit TimerStop.

Definition set_wifi_config (ssid psk : c_string) (security : Z) : M unit :=
  fun w => (tt, {| mem := mem w; timeout_timer := timeout_timer w;
                   dev := {| wifi_config := Some (ssid, psk, security) |};
                   trace := trace w ++ [SetWifiConfig ssid psk security] |}).

(** C truth value of an integer. *)
Definition truthy (z : Z) : bool := negb (z =? 0).

(** The network-management stack answers a request with a return code. *)
Definition net_mgmt_oracle := net_request -> Z.

Definition net_mgmt (stack : net_mgmt_oracle) (req : net_request) : M Z :=
  emit (NetMgmt req (stack req)) ;; ret (stack req).

(** ** Timer callback and event handlers *)

Definition timer_timeout : M unit :=
  set_timed_out true ;;
  LOG_DBG "Timer timed out" [].

Definition handle_wifi_scan_result (entry : wifi_scan_result) : M unit :=
  n <- load scan_result ;;
  set_scan_result (uint32 (n + 1)) ;;
  ei_printf "SSID: %s, Security: %s (%d),RSSI: %d dBm\n"
    [ArgStr (Some (entry_ssid entry)); ArgSecurityTxt (entry_security entry);
     ArgInt (entry_security entry); ArgInt (entry_rssi entry)].

Definition handle_wifi_scan_done (st : wifi_status) : M unit :=
  (if truthy (status st)
   then LOG_ERR "Scan request failed (%d)" [ArgInt (status st)]
   else ret tt) ;;
  set_scan_result 0 ;;
  set_scan_running 0.

Definition handle_wifi_connect_result (st : wifi_status) : M unit :=
  (if truthy (status st)
   then LOG_DBG "Connection request failed (%d)" [ArgInt (status st)]
   else (LOG_DBG "Connected" [] ;; set_wifi_connected true)) ;;
  set_connecting false.

Definition handle_wifi_disconnect_result (st : wifi_status) : M unit :=
  d <- load (fun g => disconnecting (context g)) ;;
  if d then
    LOG_DBG "Disconnection request %s (%d)"
      [ArgStr (Some (if truthy (status st) then "failed" else "done"));
       ArgInt (status st)] ;;
    set_disconnecting false ;;
    set_wifi_connected false
  else
    LOG_DBG "Disconnected" [].

Definition wifi_mgmt_event_handler (mgmt_event : event_code)
  : info_t mgmt_event -> M unit :=
  match mgmt_event as c return info_t c -> M unit with
  | NET_EVENT_WIFI_SCAN_RESULT => fun cb => handle_wifi_scan_result cb
  | NET_EVENT_WIFI_SCAN_DONE => fun cb => handle_wifi_scan_done cb
  | NET_EVENT_WIFI_CONNECT_RESULT => fun cb => handle_wifi_connect_result cb
  | NET_EVENT_WIFI_DISCONNECT_RESULT => fun cb => handle_wifi_disconnect_result cb
  | NET_EVENT_WIFI_TWT => fun _ => ret tt
  | _ => fun _ => ret tt
  end.

Definition net_mgmt_event_handler (mgmt_event : event_code)
  : info_t mgmt_event -> M unit :=
  match mgmt_event as c return info_t c -> M unit with
  | NET_EVENT_IPV4_DHCP_BOUND => fun dhcpv4 =>
      LOG_INF "DHCP IP address: %s" [ArgAddr (requested_ip dhcpv4)] ;;
      set_dhcp_configured true
  | _ => fun _ =>
      LOG_WRN "Unhandled event: 0x%x" [ArgEvent mgmt_event]
  end.

(** ** What the environment does between two instructions of a command *)

Inductive env_event :=
| WifiShellEvent (c : event_code) (info : info_t c)  (* wifi_shell_mgmt_cb fires *)
| NetShellEvent (c : event_code) (info : info_t c)   (* net_shell_mgmt_cb fires *)
| TimerExpiry.                                       (* timeout_timer's period elapses *)

(** An armed timer calls its expiry function; a one-shot timer (period
    [K_NO_WAIT]) is stopped afterwards.  A stopped timer does not fire. *)
Definition k_timer_expire : M unit :=
  t <- (fun w => (timeout_timer w, w)) ;;
  match t with
  | TIMER_STOPPED => ret tt
  | TIMER_RUNNING _ period =>
      (if period =? 0 then set_timer TIMER_STOPPED else ret tt) ;;
      timer_timeout
  end.

Definition deliver (e : env_event) : M unit :=
  match e with
  | WifiShellEvent c info => wifi_mgmt_event_handler c info
  | NetShellEvent c info => net_mgmt_event_handler c info
  | TimerExpiry => k_timer_expire
  end.

Fixpoint deliver_all (batch : list env_event) : M unit :=
  match batch with
  | [] => ret tt
  | e :: batch' => deliver e ;; deliver_all batch'
  end.

(** [ei_sleep ms]: the calling thread sleeps while [batch] is delivered. *)
Definition ei_sleep (ms : Z) (batch : list env_event) : M unit :=
  emit (Sleep ms) ;; deliver_all batch.

(** [while (cond) ei_sleep(ms);] against a schedule of batches, one per
    sleep.  [None]: the schedule ran out with the condition still true, the
    caller is still blocked. *)
Fixpoint poll (cond : globals -> bool) (ms : Z)
              (sched : list (list env_event)) (w : world) {struct sched}
  : option world :=
  if cond (mem w) then
    match sched with
    | [] => None
    | batch :: sched' => poll cond ms sched' (exec (ei_sleep ms batch) w)
    end
  else Some w.

(** ** Command surface *)

Section Commands.
Context {errno : Errno}.

Definition cmd_wifi_scan (stack : net_mgmt_oracle) : M Z :=
  rc <- net_mgmt stack NET_REQUEST_WIFI_SCAN ;;
  if truthy rc then
    LOG_ERR "Scan request failed" [] ;;
    set_scan_running 1 ;;
    ret (- ENOEXEC)
  else
    LOG_INF "Scan requested" [] ;;
    set_scan_running 1 ;;
    ret 0.

Definition cmd_wifi_scan_done (sched : list (list env_event)) (w : world)
  : option world :=
  poll (fun g => truthy (scan_running g)) 100 sched w.

Definition cmd_wifi_connect (stack : net_mgmt_oracle)
    (ssid psk : c_string) (security : Z) : M Z :=
  match ssid with
  | None => ret (-1)
  | Some s =>
      let cnx_params :=
        match psk with
        | Some p =>
            {| ssid := ssid; ssid_length := uint8 (strlen s);
               psk := psk; psk_length := uint8 (strlen p);
               channel := WIFI_CHANNEL_ANY;
               security := security; mfp := WIFI_MFP_OPTIONAL;
               timeout := SYS_FOREVER_MS |}
        | None =>
            {| ssid := ssid; ssid_length := uint8 (strlen s);
               psk := None; psk_length := 0;
               channel := WIFI_CHANNEL_ANY;
               security := WIFI_SECURITY_TYPE_NONE; mfp := WIFI_MFP_DISABLE;
               timeout := SYS_FOREVER_MS |}
        end in
      LOG_DBG "Connecting to %s" [ArgStr ssid] ;;
      set_connecting true ;;
      LOG_DBG "cnx_params.ssid: %s, cnx_params.psk: %s, cnx_params.security: %d"
        [ArgStr ssid; ArgStr psk;
         ArgInt (match psk with Some _ => security | None => WIFI_SECURITY_TYPE_NONE end)] ;;
      set_wifi_config ssid psk security ;;
      rc <- net_mgmt stack (NET_REQUEST_WIFI_CONNECT cnx_params) ;;
      if truthy rc then
        LOG_DBG "Connection request failed" [] ;;
        set_connecting false ;;
        ret (- ENOEXEC)
      else
        LOG_DBG "Connection requested" [] ;;
        ret 0
  end.

Definition cmd_wifi_disconnect (stack : net_mgmt_oracle) : M Z :=
  set_disconnecting true ;;
  status <- net_mgmt stack NET_REQUEST_WIFI_DISCONNECT ;;
  if truthy status then
    set_disconnecting false ;;
    if status =? - EALREADY then
      LOG_INF "Already disconnected" [] ;;
      ret 0
    else
      LOG_ERR "Disconnect request failed" [] ;;
      ret (- ENOEXEC)
  else
    LOG_INF "Disconnect requested" [] ;;
    ret 0.

Definition cmd_wifi_connecting (sched : list (list env_event)) (w : world)
  : option (Z * world) :=
  let w1 := exec (set_timed_out false ;;
                  k_timer_start (K_SECONDS 30) K_NO_WAIT ;;
                  LOG_DBG "Waiting for connection to be established" []) w in
  match poll (fun g => connecting (context g) && negb (timed_out g)) 100 sched w1 with
  | None => None
  | Some w2 =>
      Some ((k_timer_stop ;;
             t <- load timed_out ;;
             if t then
               LOG_ERR "Connecting timed out" [] ;;
               ret (- ETIMEDOUT)
             else
               LOG_INF "Connecting established" [] ;;
               ret 0) w2)
  end.

Definition cmd_dhcp_configured (sched : list (list env_event)) (w : world)
  : option (Z * world) :=
  let w1 := exec (set_timed_out false ;;
                  k_timer_start (K_SECONDS 30) K_NO_WAIT ;;
                  LOG_DBG "Waiting for DHCP to be configured" []) w in
  match poll (fun g => negb (dhcp_configured g) && negb (timed_out g)) 500 sched w1 with
  | None => None
  | Some w2 =>
      Some ((k_timer_stop ;;
             t <- load timed_out ;;
             if t then
               LOG_ERR "DHCP configuration timed out" [] ;;
               ret (- ETIMEDOUT)
             else
               LOG_WRN "DHCP configuration established" [] ;;
               ret 0) w2)
  end.

Definition cmd_wifi_connected : M bool := load wifi_connected.

Definition wifi_shell_init : M Z :=
  set_context_all 0 ;;
  set_scan_result 0 ;;
  set_scan_running 0 ;;
  emit (AddEventCallback wifi_shell_mgmt_cb WIFI_SHELL_MGMT_EVENTS) ;;
  emit (AddEventCallback net_shell_mgmt_cb [NET_EVENT_IPV4_DHCP_BOUND]) ;;
  ret 0.

(** The codes the specification names. *)
Definition InvalidArgument : Z := -1.
Definition RequestError : Z := - ENOEXEC.
Definition Timeout : Z := - ETIMEDOUT.

End Commands.

(** Static storage is zero-initialised; [wifi_shell_init] runs once at
    boot, before the application. *)
Definition power_on : world :=
  {| mem := {| context := {| connecting := false; disconnecting := false; unused := 0 |};
               scan_result := 0; scan_running := 0;
               dhcp_configured := false; wifi_connected := false;
               timed_out := false |};
     timeout_timer := TIMER_STOPPED;
     dev := {| wifi_config := None |};
     trace := [] |}.

Definition booted {errno : Errno} : world := exec wifi_shell_init power_on.

(** ** Histories: commands and events in sequence *)

Inductive action :=
| CallScan (stack : net_mgmt_oracle)
| CallScanDone (sched : list (list env_event))
| CallConnect (stack : net_mgmt_oracle) (ssid psk : c_string) (security : Z)
| CallDisconnect (stack : net_mgmt_oracle)
| CallConnecting (sched : list (list env_event))
| CallDhcpConfigured (sched : list (list env_event))
| CallConnected
| Deliver (e : env_event).

Section Histories.
Context {errno : Errno}.

(** [None]: the command never returns under the given schedule. *)
Definition run_action (a : action) (w : world) : option world :=
  match a with
  | CallScan stack => Some (exec (cmd_wifi_scan stack) w)
  | CallScanDone sched => cmd_wifi_scan_done sched w
  | CallConnect stack ssid psk security =>
      Some (exec (cmd_wifi_connect stack ssid psk security) w)
  | CallDisconnect stack => Some (exec (cmd_wifi_disconnect stack) w)
  | CallConnecting sched => option_map snd (cmd_wifi_connecting sched w)
  | CallDhcpConfigured sched => option_map snd (cmd_dhcp_configured sched w)
  | CallConnected => Some (exec cmd_wifi_connected w)
  | Deliver e => Some (exec (deliver e) w)
  end.

Fixpoint run (acts : list action) (w : world) : option world :=
  match acts with
  | [] => Some w
  | a :: acts' =>
      match run_action a w with
      | Some w' => run acts' w'
      | None => None
      end
  end.

(** A caller that lets a request resolve before it issues the opposite
    one: [connect] only while no disconnect is pending, [disconnect] only
    while no connect is pending. *)
Definition permitted (a : action) (w : world) : bool :=
  match a with
  | CallConnect _ _ _ _ => negb (disconnecting (context (mem w)))
  | CallDisconnect _ => negb (connecting (context (mem w)))
  | _ => true
  end.

Fixpoint run_permitted (acts : list action) (w : world) : option world :=
  match acts with
  | [] => Some w
  | a :: acts' =>
      if permitted a w then
        match run_action a w with
        | Some w' => run_permitted acts' w'
        | None => None
        end
      else None
  end.

End Histories.

Definition is_net_mgmt (e : effect) : bool :=
  match e with NetMgmt _ _ => true | _ => false end.

(** [e1] occurs, and later [e2], in the trace [l]. *)
Definition precedes (e1 e2 : effect) (l : list effect) : Prop :=
  exists l1 l2 l3, l = l1 ++ e1 :: l2 ++ e2 :: l3.

(** The effects a command appended to the trace. *)
Definition appended (w w' : world) (l : list effect) : Prop :=
  trace w' = trace w ++ l.

(** Mutual exclusion of the two request flags. *)
Definition exclusive (w : world) : Prop :=
  connecting (context (mem w)) && disconnecting (context (mem w)) = false.

(** Going from [w] to [w'] raised neither request flag. *)
Definition flags_not_raised (w w' : world) : Prop :=
  (connecting (context (mem w')) = true -> connecting (context (mem w)) = true)
  /\ (disconnecting (context (mem w')) = true -> disconnecting (context (mem w)) = true).

(** The timer's expiry is among the events of a batch. *)
Definition timer_fires (batch : list env_event) : bool :=
  existsb (fun e => match e with TimerExpiry => true | _ => false end) batch.

(** Effects that neither arm nor disarm the timer, nor reset [timed_out]. *)
Definition passive (e : effect) : bool :=
  match e with
  | TimerStart _ _ | TimerStop | Store V_timed_out 0 => false
  | _ => true
  end.

(** What the specification asks of a blocking wait, in terms of the
    effects [during] its polling loop:
    - it returns as soon as the schedule lets the timer expire;
    - when it returns, the effects it appended are: the reset of
      [timed_out], the start of the 30 s one-shot timer, a log line, the
      effects [during] the loop (none of which touches the timer or resets
      [timed_out]), the stop of the timer and a final log line;
    - the timer is stopped on return and a late expiry changes nothing;
    - the result is Timeout exactly when [timed_out] was stored during
      the loop, and 0 otherwise. *)
Definition wait_contract {errno : Errno}
    (wait : list (list env_event) -> world -> option (Z * world)) : Prop :=
  forall (sched : list (list env_event)) (w : world),
    (existsb timer_fires sched = true -> exists r w', wait sched w = Some (r, w'))
    /\ (forall r w', wait sched w = Some (r, w') ->
        exists msg during fin,
          appended w w'
            (Store V_timed_out 0 :: TimerStart 30000 0 :: Log LOG_LEVEL_DBG msg []
               :: during ++ [TimerStop; fin])
          /\ forallb passive during = true
          /\ passive fin = true
          /\ timeout_timer w' = TIMER_STOPPED
          /\ exec (deliver TimerExpiry) w' = w'
          /\ (r = Timeout <-> In (Store V_timed_out 1) during)
          /\ (r = Timeout <-> timed_out (mem w') = true)
          /\ (r = Timeout \/ r = 0)).

(** From [w] to [w'] the effects [l] were appended; none of them touches
    the timer or resets [timed_out]; and [timed_out] holds in [w'] exactly
    when it held in [w] or was stored in between. *)
Definition since (w w' : world) (l : list effect) : Prop :=
  trace w' = trace w ++ l
  /\ forallb passive l = true
  /\ (timed_out (mem w') = true <->
      timed_out (mem w) = true \/ In (Store V_timed_out 1) l).

(** The one-shot timer is still armed, or it has already fired. *)
Definition armed_or_fired (w : world) : Prop :=
  (exists d, timeout_timer w = TIMER_RUNNING d 0) \/ timed_out (mem w) = true.

(** ** Vocabulary for the properties of histories *)

(** The values the C types of the two scan variables can hold, as far as
    the code ever writes them. *)
Definition in_range (g : globals) : Prop :=
  0 <= scan_result g < 2 ^ 32 /\ (scan_running g = 0 \/ scan_running g = 1).

(** The requests handed to the stack, in order, as recorded in a trace. *)
Definition requests (l : list effect) : list net_request :=
  flat_map (fun e => match e with NetMgmt req _ => [req] | _ => [] end) l.

(** The connection request [cmd_wifi_connect] builds for a non-null SSID. *)
Definition connect_params (s : string) (psk : c_string) (security : Z)
  : wifi_connect_req_params :=
  {| ssid := Some s;
     ssid_length := uint8 (strlen s);
     psk := psk;
     psk_length := match psk with Some p => uint8 (strlen p) | None => 0 end;
     channel := 255;
     security := match psk with Some _ => security | None => 0 end;
     mfp := match psk with Some _ => WIFI_MFP_OPTIONAL | None => WIFI_MFP_DISABLE end;
     timeout := -1 |}.

Definition requests_of (a : action) : list net_request :=
  match a with
  | CallScan _ => [NET_REQUEST_WIFI_SCAN]
  | CallConnect _ (Some s) psk security =>
      [NET_REQUEST_WIFI_CONNECT (connect_params s psk security)]
  | CallDisconnect _ => [NET_REQUEST_WIFI_DISCONNECT]
  | _ => []
  end.

(** The configuration the last connect call with a non-null SSID passed. *)
Definition config_after (acts : list action) (c : option (c_string * c_string * Z))
  : option (c_string * c_string * Z) :=
  fold_left (fun c a => match a with
                        | CallConnect _ (Some s) psk security =>
                            Some (Some s, psk, security)
                        | _ => c
                        end) acts c.

Definition is_scan_done (e : env_event) : bool :=
  match e with WifiShellEvent NET_EVENT_WIFI_SCAN_DONE _ => true | _ => false end.

Definition is_connect_result (e : env_event) : bool :=
  match e with WifiShellEvent NET_EVENT_WIFI_CONNECT_RESULT _ => true | _ => false end.

Definition is_dhcp_bound (e : env_event) : bool :=
  match e with NetShellEvent NET_EVENT_IPV4_DHCP_BOUND _ => true | _ => false end.

Definition is_timer_expiry (e : env_event) : bool :=
  match e with TimerExpiry => true | _ => false end.

Definition is_disconnect_call (a : action) : bool :=
  match a with CallDisconnect _ => true | _ => false end.

(** The three commands that hand a request to the stack. *)
Definition is_command (a : action) : bool :=
  match a with
  | CallScan _ | CallConnect _ _ _ _ | CallDisconnect _ => true
  | _ => false
  end.

(** Effects a wait itself performs: no request, no device call. *)
Definition local_effect (e : effect) : bool :=
  match e with NetMgmt _ _ | SetWifiConfig _ _ _ => false | _ => true end.

(** [w'] differs from [w] at most in [timed_out], the timer and appended
    local effects: what the code of a wait around its loop can do. *)
Definition wait_local (w w' : world) : Prop :=
  (exists b, mem w' = with_timed_out b (mem w))
  /\ dev w' = dev w
  /\ exists l, trace w' = trace w ++ l /\ forallb local_effect l = true.

(** A session as an application drives it: scan, connect, wait for the
    connection and the lease, disconnect. *)
Definition typical_session : list action :=
  [ CallScan (fun _ => 0);
    Deliver (WifiShellEvent NET_EVENT_WIFI_SCAN_RESULT
               {| entry_ssid := "MySSID"; entry_security := 1; entry_rssi := -40 |});
    Deliver (WifiShellEvent NET_EVENT_WIFI_SCAN_DONE {| status := 0 |});
    CallScanDone [];
    CallConnect (fun _ => 0) (Some "MySSID") (Some "password123") 1;
    CallConnecting [[]; [WifiShellEvent NET_EVENT_WIFI_CONNECT_RESULT {| status := 0 |}]];
    CallDhcpConfigured [[NetShellEvent NET_EVENT_IPV4_DHCP_BOUND
                           {| requested_ip := 3232235777 |}]];
    CallConnected;
    CallDisconnect (fun _ => 0);
    Deliver (WifiShellEvent NET_EVENT_WIFI_DISCONNECT_RESULT {| status := 0 |}) ].

(** * Properties *)

Ltac unfold_m :=
  cbv [exec bind ret emit load store net_mgmt set_timer set_wifi_config
       k_timer_start k_timer_stop
       set_connecting set_disconnecting set_context_all set_scan_result
       set_scan_running set_dhcp_configured set_wifi_connected set_timed_out
       LOG_DBG LOG_INF LOG_WRN LOG_ERR ei_printf].

Lemma truthy_spec (z : Z) : truthy z = true <-> z <> 0.
Proof.
  unfold truthy. rewrite negb_true_iff, Z.eqb_neq. tauto.
Qed.

Lemma truthy_false (z : Z) : truthy z = false <-> z = 0.
Proof.
  unfold truthy. rewrite negb_false_iff, Z.eqb_eq. tauto.
Qed.

Section Straight.
Context {errno : Errno}.

Lemma RequestError_nonzero : RequestError <> 0.
Proof. unfold RequestError. pose proof ENOEXEC_pos. lia. Qed.

Lemma Timeout_nonzero : Timeout <> 0.
Proof. unfold Timeout. pose proof ETIMEDOUT_pos. lia. Qed.

Lemma neg_errno_truthy (e : Z) : 0 < e -> truthy (- e) = true.
Proof. intro He. apply truthy_spec. lia. Qed.

(** C1 (amended). A call to connect with a NULL SSID fails with
    InvalidArgument (-1) and leaves the whole world as it was: no flag, no
    device configuration, no request, not even a log line.  An empty,
    non-null SSID passes the guard: the connect request is issued with
    [ssid_length] 0. *)
Theorem connect_null_ssid_rejected :
  forall (stack : net_mgmt_oracle) (psk : c_string) (security : Z) (w : world),
    cmd_wifi_connect stack None psk security w = (InvalidArgument, w)
    /\ exists params,
         ssid params = Some "" /\ ssid_length params = 0
         /\ In (NetMgmt (NET_REQUEST_WIFI_CONNECT params)
                        (stack (NET_REQUEST_WIFI_CONNECT params)))
               (trace (exec (cmd_wifi_connect stack (Some "") psk security) w)).
Proof.
  intros stack psk security w. split; [reflexivity|].
  unfold cmd_wifi_connect.
  match goal with
  | |- context [NET_REQUEST_WIFI_CONNECT ?p] =>
      exists p; set (params := p)
  end.
  assert (Hp : ssid params = Some "" /\ ssid_length params = 0)
    by (subst params; destruct psk; split; reflexivity).
  destruct Hp as [Hs Hl]. repeat split; trivial.
  unfold_m. destruct (truthy (stack (NET_REQUEST_WIFI_CONNECT params))); cbn;
    rewrite ?in_app_iff; cbn; tauto.
Qed.

(** C2. Disconnect-result event: when [disconnecting] is set the handler
    clears [disconnecting] and [wifi_connected], whatever the status; when
    it is not set (unsolicited disconnect) no state field changes.  Timer
    and device are untouched in both cases. *)
Theorem disconnect_result_effect :
  forall (st : wifi_status) (w : world),
    let w' := exec (handle_wifi_disconnect_result st) w in
    (if disconnecting (context (mem w))
     then disconnecting (context (mem w')) = false
          /\ wifi_connected (mem w') = false
          /\ mem w' = with_wifi_connected false (with_disconnecting false (mem w))
     else mem w' = mem w /\ wifi_connected (mem w') = wifi_connected (mem w))
    /\ timeout_timer w' = timeout_timer w
    /\ dev w' = dev w.
Proof.
  intros st w. unfold handle_wifi_disconnect_result. unfold_m.
  destruct (disconnecting (context (mem w))); cbn; auto.
Qed.

(** C3. [scan()] sets [scan_running] whether or not the request is
    accepted; it returns RequestError exactly when the request call fails
    and 0 exactly when it succeeds.  Exactly one scan request is issued. *)
Theorem scan_sets_running_always :
  forall (stack : net_mgmt_oracle) (w : world),
    let rc := stack NET_REQUEST_WIFI_SCAN in
    let r := fst (cmd_wifi_scan stack w) in
    let w' := exec (cmd_wifi_scan stack) w in
    scan_running (mem w') = 1
    /\ truthy (scan_running (mem w')) = true
    /\ (r = RequestError <-> rc <> 0)
    /\ (r = 0 <-> rc = 0)
    /\ (exists l, appended w w' (NetMgmt NET_REQUEST_WIFI_SCAN rc :: l)
                  /\ forall req rc', ~ In (NetMgmt req rc') l).
Proof.
  intros stack w rc r w'. subst r w'. unfold cmd_wifi_scan, appended. unfold_m.
  fold rc. pose proof ENOEXEC_pos as Hpos. unfold RequestError.
  destruct (truthy rc) eqn:Hrc; cbn;
    [apply truthy_spec in Hrc | apply truthy_false in Hrc];
    (split; [reflexivity|]); (split; [reflexivity|]);
    (split; [split; intros; lia || tauto|]);
    (split; [split; intros; lia || tauto|]);
    (eexists; split; [rewrite <- !app_assoc; reflexivity|]);
    cbn; intros req rc' [H|[H|H]]; try discriminate; tauto.
Qed.

(** C5 (amended). Connect-result event: the handler always clears
    [connecting]; on status zero it sets [wifi_connected]; on a non-zero
    status it does not write [wifi_connected], which keeps the value it had
    (false if it was false).  Nothing else changes. *)
Theorem connect_result_effect :
  forall (st : wifi_status) (w : world),
    let w' := exec (handle_wifi_connect_result st) w in
    connecting (context (mem w')) = false
    /\ wifi_connected (mem w') =
         (if status st =? 0 then true else wifi_connected (mem w))
    /\ mem w' = with_connecting false
                  (if status st =? 0 then with_wifi_connected true (mem w) else mem w)
    /\ timeout_timer w' = timeout_timer w
    /\ dev w' = dev w.
Proof.
  intros st w. unfold handle_wifi_connect_result, truthy. unfold_m.
  destruct (status st =? 0); cbn; auto.
Qed.

(** C6. Scan-done event: whatever the status in the payload, the handler
    sets [scan_running] and the result counter to zero and changes no other
    state field (nor the timer, nor the device). *)
Theorem scan_done_effect :
  forall (st : wifi_status) (w : world),
    let w' := exec (handle_wifi_scan_done st) w in
    scan_running (mem w') = 0
    /\ scan_result (mem w') = 0
    /\ context (mem w') = context (mem w)
    /\ dhcp_configured (mem w') = dhcp_configured (mem w)
    /\ wifi_connected (mem w') = wifi_connected (mem w)
    /\ timed_out (mem w') = timed_out (mem w)
    /\ timeout_timer w' = timeout_timer w
    /\ dev w' = dev w.
Proof.
  intros st w. unfold handle_wifi_scan_done. unfold_m.
  destruct (truthy (status st)); cbn; repeat split.
Qed.

(** C7. [disconnect()] stores [disconnecting = 1] and then issues the
    disconnect request.  Request answered -EALREADY: [disconnecting] is
    cleared and 0 returned.  Any other non-zero answer: [disconnecting] is
    cleared and RequestError returned.  Request accepted: 0 is returned and
    [disconnecting] stays set. *)
Theorem disconnect_outcomes :
  forall (stack : net_mgmt_oracle) (w : world),
    let rc := stack NET_REQUEST_WIFI_DISCONNECT in
    let r := fst (cmd_wifi_disconnect stack w) in
    let w' := exec (cmd_wifi_disconnect stack) w in
    (exists l, appended w w'
                 (Store V_disconnecting 1 :: NetMgmt NET_REQUEST_WIFI_DISCONNECT rc :: l))
    /\ (rc = - EALREADY -> r = 0 /\ disconnecting (context (mem w')) = false)
    /\ (rc <> 0 -> rc <> - EALREADY ->
        r = RequestError /\ disconnecting (context (mem w')) = false)
    /\ (rc = 0 -> r = 0 /\ disconnecting (context (mem w')) = true).
Proof.
  intros stack w rc r w'. subst r w'.
  unfold cmd_wifi_disconnect, appended, RequestError. unfold_m. fold rc.
  pose proof EALREADY_pos as Hpos.
  destruct (truthy rc) eqn:Hrc;
    [apply truthy_spec in Hrc | apply truthy_false in Hrc].
  - destruct (rc =? - EALREADY) eqn:Heq;
      [apply Z.eqb_eq in Heq | apply Z.eqb_neq in Heq]; cbn;
      (split; [eexists; rewrite <- !app_assoc; reflexivity|]);
      repeat split; intros; try reflexivity; exfalso; lia.
  - cbn. split; [eexists; rewrite <- !app_assoc; reflexivity|].
    repeat split; intros; try reflexivity; exfalso; lia.
Qed.

(** C9. For every connect with a non-null SSID the command appends, in
    this order: effects that are no request, then
    [set_wifi_config(ssid, psk, security)], then the connect request.  The
    device holds the new configuration when the command returns, also when
    the request is refused and connect returns RequestError. *)
Theorem connect_stores_config_before_request :
  forall (stack : net_mgmt_oracle) (s : string) (psk : c_string) (security : Z)
         (w : world),
    let r := fst (cmd_wifi_connect stack (Some s) psk security w) in
    let w' := exec (cmd_wifi_connect stack (Some s) psk security) w in
    exists params before after,
      appended w w'
        (before ++ SetWifiConfig (Some s) psk security
                :: NetMgmt (NET_REQUEST_WIFI_CONNECT params)
                           (stack (NET_REQUEST_WIFI_CONNECT params))
                :: after)
      /\ forallb (fun e => negb (is_net_mgmt e)) (before ++ after) = true
      /\ precedes (SetWifiConfig (Some s) psk security)
                  (NetMgmt (NET_REQUEST_WIFI_CONNECT params)
                           (stack (NET_REQUEST_WIFI_CONNECT params)))
                  (trace w')
      /\ wifi_config (dev w') = Some (Some s, psk, security)
      /\ (stack (NET_REQUEST_WIFI_CONNECT params) <> 0 ->
          r = RequestError
          /\ wifi_config (dev w') = Some (Some s, psk, security)
          /\ connecting (context (mem w')) = false)
      /\ (stack (NET_REQUEST_WIFI_CONNECT params) = 0 ->
          r = 0 /\ connecting (context (mem w')) = true).
Proof.
  intros stack s psk security w r w'. subst r w'.
  unfold cmd_wifi_connect, appended, precedes, RequestError.
  match goal with
  | |- context [NET_REQUEST_WIFI_CONNECT ?p] => exists p; set (params := p)
  end.
  unfold_m.
  destruct (truthy (stack (NET_REQUEST_WIFI_CONNECT params))) eqn:Hrc;
    [apply truthy_spec in Hrc | apply truthy_false in Hrc]; cbn.
  - eexists [_; _; _], [_; _].
    split; [rewrite <- !app_assoc; reflexivity|].
    split; [reflexivity|].
    split; [eexists (trace w ++ [_; _; _]), [], _;
            rewrite <- !app_assoc; reflexivity|].
    split; [reflexivity|].
    split; intros; [auto | tauto].
  - eexists [_; _; _], [_].
    split; [rewrite <- !app_assoc; reflexivity|].
    split; [reflexivity|].
    split; [eexists (trace w ++ [_; _; _]), [], _;
            rewrite <- !app_assoc; reflexivity|].
    split; [reflexivity|].
    split; intros; [tauto | auto].
Qed.

(** C10. [disconnect()] never writes [wifi_connected].  In particular,
    when the stack answers -EALREADY, [disconnect()] returns 0 with
    [disconnecting] cleared and [is_connected()] answers as before; and
    there is a history after which [disconnect()] has returned 0 and
    [is_connected()] still returns true, until the disconnect-result event
    for that request arrives. *)
Theorem disconnect_keeps_wifi_connected :
  (forall (stack : net_mgmt_oracle) (w : world),
     let r := fst (cmd_wifi_disconnect stack w) in
     let w' := exec (cmd_wifi_disconnect stack) w in
     wifi_connected (mem w') = wifi_connected (mem w)
     /\ fst (cmd_wifi_connected w') = fst (cmd_wifi_connected w)
     /\ (stack NET_REQUEST_WIFI_DISCONNECT = - EALREADY ->
         r = 0 /\ disconnecting (context (mem w')) = false
         /\ fst (cmd_wifi_connected w') = fst (cmd_wifi_connected w)))
  /\ (forall rc : Z, rc = 0 \/ rc = - EALREADY ->
      exists w : world,
        run [ CallConnect (fun _ => 0) (Some "MySSID") (Some "password123") 1;
              Deliver (WifiShellEvent NET_EVENT_WIFI_CONNECT_RESULT {| status := 0 |}) ]
            booted = Some w
        /\ fst (cmd_wifi_disconnect (fun _ => rc) w) = 0
        /\ fst (cmd_wifi_connected (exec (cmd_wifi_disconnect (fun _ => rc)) w)) = true
        /\ fst (cmd_wifi_connected
                  (exec (handle_wifi_disconnect_result {| status := 0 |})
                        (exec (cmd_wifi_disconnect (fun _ => 0)) w))) = false).
Proof.
  split.
  - intros stack w r w'. subst r w'. unfold cmd_wifi_disconnect, cmd_wifi_connected.
    unfold_m. pose proof EALREADY_pos as Hpos.
    destruct (truthy (stack NET_REQUEST_WIFI_DISCONNECT)) eqn:Hrc.
    + destruct (stack NET_REQUEST_WIFI_DISCONNECT =? - EALREADY) eqn:Heq;
        [apply Z.eqb_eq in Heq | apply Z.eqb_neq in Heq]; cbn;
        repeat split; intros; try reflexivity; exfalso; lia.
    + cbn. apply truthy_false in Hrc. repeat split; intros; try reflexivity; exfalso; lia.
  - intros rc Hrc. eexists. split; [cbn; reflexivity|].
    unfold cmd_wifi_disconnect, cmd_wifi_connected, handle_wifi_disconnect_result.
    unfold_m. pose proof EALREADY_pos as Hpos.
    destruct Hrc as [-> | ->].
    + cbn. auto.
    + rewrite (neg_errno_truthy _ Hpos), Z.eqb_refl. cbn. auto.
Qed.

End Straight.

(** ** The request flags along a history *)

Lemma exec_bind {A B} (m : M A) (k : M B) (w : world) :
  exec (m ;; k) w = exec k (exec m w).
Proof. unfold exec, bind. destruct (m w). reflexivity. Qed.

Lemma flags_not_raised_refl (w : world) : flags_not_raised w w.
Proof. split; trivial. Qed.

Lemma flags_not_raised_trans (w1 w2 w3 : world) :
  flags_not_raised w1 w2 -> flags_not_raised w2 w3 -> flags_not_raised w1 w3.
Proof. unfold flags_not_raised. tauto. Qed.

Lemma flags_not_raised_same (w w' : world) :
  context (mem w') = context (mem w) -> flags_not_raised w w'.
Proof. unfold flags_not_raised. intros ->. tauto. Qed.

Lemma exclusive_not_raised (w w' : world) :
  exclusive w -> flags_not_raised w w' -> exclusive w'.
Proof.
  unfold exclusive, flags_not_raised. intros Hex [Hc Hd].
  destruct (connecting (context (mem w'))), (disconnecting (context (mem w')));
    trivial.
  rewrite Hc, Hd in Hex by reflexivity. discriminate.
Qed.

Ltac case_ifs :=
  repeat match goal with
         | |- context [if ?b then _ else _] => destruct b eqn:?; cbn
         end.

Lemma expire_not_raised (w : world) : flags_not_raised w (exec k_timer_expire w).
Proof.
  apply flags_not_raised_same. unfold k_timer_expire, timer_timeout. unfold_m.
  destruct (timeout_timer w) as [|d period]; cbn; [reflexivity|].
  destruct (period =? 0); reflexivity.
Qed.

Lemma deliver_not_raised (e : env_event) (w : world) :
  flags_not_raised w (exec (deliver e) w).
Proof.
  destruct e as [c info | c info |]; cbn [deliver].
  - destruct c; cbn in *;
      unfold handle_wifi_scan_result, handle_wifi_scan_done,
        handle_wifi_connect_result, handle_wifi_disconnect_result,
        flags_not_raised;
      unfold_m; case_ifs; cbn; split; congruence.
  - apply flags_not_raised_same. destruct c; reflexivity.
  - apply expire_not_raised.
Qed.

Lemma deliver_all_not_raised (batch : list env_event) (w : world) :
  flags_not_raised w (exec (deliver_all batch) w).
Proof.
  revert w. induction batch as [|e batch IH]; intro w; cbn [deliver_all].
  - apply flags_not_raised_refl.
  - rewrite exec_bind.
    eapply flags_not_raised_trans; [apply deliver_not_raised | apply IH].
Qed.

Lemma sleep_not_raised (ms : Z) (batch : list env_event) (w : world) :
  flags_not_raised w (exec (ei_sleep ms batch) w).
Proof.
  unfold ei_sleep. rewrite exec_bind.
  eapply flags_not_raised_trans; [|apply deliver_all_not_raised].
  apply flags_not_raised_same. reflexivity.
Qed.

Lemma poll_not_raised (cond : globals -> bool) (ms : Z)
    (sched : list (list env_event)) :
  forall w w', poll cond ms sched w = Some w' -> flags_not_raised w w'.
Proof.
  induction sched as [|batch sched IH]; intros w w'; cbn [poll];
    destruct (cond (mem w)); intro Hp; try discriminate;
    try (injection Hp as <-; apply flags_not_raised_refl).
  eapply flags_not_raised_trans; [apply sleep_not_raised | apply IH, Hp].
Qed.

Section Invariant.
Context {errno : Errno}.

Lemma connecting_not_raised (sched : list (list env_event)) (w : world) r w' :
  cmd_wifi_connecting sched w = Some (r, w') -> flags_not_raised w w'.
Proof.
  unfold cmd_wifi_connecting.
  match goal with |- context [poll ?c ?ms sched ?w1] =>
    destruct (poll c ms sched w1) as [w2|] eqn:Hp end; [|discriminate].
  apply poll_not_raised in Hp. unfold_m. cbn. intro H.
  eapply flags_not_raised_trans; [|eapply flags_not_raised_trans; [exact Hp|]];
    apply flags_not_raised_same; [reflexivity|].
  destruct (timed_out (mem w2)); injection H as _ <-; reflexivity.
Qed.

Lemma dhcp_wait_not_raised (sched : list (list env_event)) (w : world) r w' :
  cmd_dhcp_configured sched w = Some (r, w') -> flags_not_raised w w'.
Proof.
  unfold cmd_dhcp_configured.
  match goal with |- context [poll ?c ?ms sched ?w1] =>
    destruct (poll c ms sched w1) as [w2|] eqn:Hp end; [|discriminate].
  apply poll_not_raised in Hp. unfold_m. cbn. intro H.
  eapply flags_not_raised_trans; [|eapply flags_not_raised_trans; [exact Hp|]];
    apply flags_not_raised_same; [reflexivity|].
  destruct (timed_out (mem w2)); injection H as _ <-; reflexivity.
Qed.

Lemma run_action_exclusive (a : action) (w w' : world) :
  exclusive w -> permitted a w = true -> run_action a w = Some w' -> exclusive w'.
Proof.
  intros Hex Hperm Hrun.
  destruct a as [stack | sched | stack ss pk sec | stack | sched | sched | | e];
    cbn [run_action permitted] in *.
  - injection Hrun as <-. apply (exclusive_not_raised w); trivial.
    apply flags_not_raised_same. unfold cmd_wifi_scan. unfold_m.
    case_ifs; reflexivity.
  - apply (exclusive_not_raised w); trivial. eapply poll_not_raised, Hrun.
  - injection Hrun as <-. apply negb_true_iff in Hperm.
    unfold exclusive in *. destruct ss as [s|]; [|exact Hex].
    unfold cmd_wifi_connect. unfold_m. case_ifs; cbn; rewrite ?Hperm;
      auto using andb_false_r.
  - injection Hrun as <-. apply negb_true_iff in Hperm.
    unfold exclusive in *. unfold cmd_wifi_disconnect. unfold_m.
    case_ifs; cbn; rewrite ?Hperm; auto using andb_false_r.
  - destruct (cmd_wifi_connecting sched w) as [[r w2]|] eqn:Hw; [|discriminate].
    injection Hrun as <-. apply (exclusive_not_raised w); trivial.
    eapply connecting_not_raised, Hw.
  - destruct (cmd_dhcp_configured sched w) as [[r w2]|] eqn:Hw; [|discriminate].
    injection Hrun as <-. apply (exclusive_not_raised w); trivial.
    eapply dhcp_wait_not_raised, Hw.
  - injection Hrun as <-. exact Hex.
  - injection Hrun as <-. apply (exclusive_not_raised w); trivial.
    apply deliver_not_raised.
Qed.

Lemma run_permitted_exclusive (acts : list action) :
  forall w w', exclusive w -> run_permitted acts w = Some w' -> exclusive w'.
Proof.
  induction acts as [|a acts IH]; intros w w' Hex Hrun; cbn [run_permitted] in Hrun.
  - injection Hrun as <-. exact Hex.
  - destruct (permitted a w) eqn:Hperm; [|discriminate].
    destruct (run_action a w) as [w1|] eqn:Hact; [|discriminate].
    eapply IH; [|exact Hrun]. eapply run_action_exclusive; eassumption.
Qed.

(** C4 (amended). Along every history from the booted state in which
    connect is called only while [disconnecting] is clear and disconnect
    only while [connecting] is clear, at most one of the two flags is set
    in the state reached. *)
Theorem flags_exclusive_when_permitted :
  forall (acts : list action) (w : world),
    run_permitted acts booted = Some w ->
    connecting (context (mem w)) && disconnecting (context (mem w)) = false.
Proof.
  intros acts w Hrun.
  apply (run_permitted_exclusive acts booted w); [reflexivity | exact Hrun].
Qed.

End Invariant.

(** A permitted history: connect, wait for the result, disconnect, result. *)
Lemma flags_exclusive_when_permitted_witness :
  exists w : world,
    run_permitted
      [ CallConnect (fun _ => 0) (Some "MySSID") (Some "password123") 1;
        CallConnecting
          [[]; [WifiShellEvent NET_EVENT_WIFI_CONNECT_RESULT {| status := 0 |}]];
        CallConnected;
        CallDisconnect (fun _ => 0);
        Deliver (WifiShellEvent NET_EVENT_WIFI_DISCONNECT_RESULT {| status := 0 |}) ]
      (booted (errno := zephyr_errno)) = Some w
    /\ connecting (context (mem w)) && disconnecting (context (mem w)) = false.
Proof.
  match goal with
  | |- exists w, run_permitted ?hist _ = _ /\ _ =>
      eexists; split;
      [ vm_compute; reflexivity
      | apply (flags_exclusive_when_permitted (errno := zephyr_errno) hist);
        vm_compute; reflexivity ]
  end.
Defined.

(** ** The blocking waits *)

Lemma since_refl (w : world) : since w w [].
Proof.
  unfold since. rewrite app_nil_r. cbn. tauto.
Qed.

Lemma since_trans (w1 w2 w3 : world) (l1 l2 : list effect) :
  since w1 w2 l1 -> since w2 w3 l2 -> since w1 w3 (l1 ++ l2).
Proof.
  unfold since. intros (Ht1 & Hp1 & Hi1) (Ht2 & Hp2 & Hi2).
  rewrite Ht2, Ht1, app_assoc, forallb_app, Hp1, Hp2, Hi2, Hi1, in_app_iff.
  tauto.
Qed.

(** A step that appends passive effects other than the store of
    [timed_out] and keeps the flag. *)
Lemma since_quiet (w w' : world) (l : list effect) :
  trace w' = trace w ++ l ->
  forallb (fun e => passive e && negb (match e with
                                       | Store V_timed_out _ => true
                                       | _ => false
                                       end)) l = true ->
  timed_out (mem w') = timed_out (mem w) ->
  since w w' l.
Proof.
  intros Ht Hl Hm. unfold since. rewrite Hm. split; [exact Ht|].
  rewrite forallb_forall in Hl. split.
  - apply forallb_forall. intros e He. apply Hl in He.
    apply andb_true_iff in He. tauto.
  - split; [tauto|]. intros [H|H]; [exact H|].
    apply Hl in H. discriminate.
Qed.

Ltac quiet :=
  apply since_quiet;
  [ cbn [trace]; rewrite <- ?app_assoc; reflexivity | reflexivity | reflexivity ].

Lemma wifi_handler_since (c : event_code) (info : info_t c) (w : world) :
  exists l, since w (exec (wifi_mgmt_event_handler c info) w) l.
Proof.
  destruct c; cbn [wifi_mgmt_event_handler info_t] in *;
    try (exists []; apply since_refl).
  - eexists [_; _]. unfold handle_wifi_scan_result. unfold_m. quiet.
  - unfold handle_wifi_scan_done. unfold_m.
    destruct (truthy (status info)); [eexists [_; _; _] | eexists [_; _]]; quiet.
  - unfold handle_wifi_connect_result. unfold_m.
    destruct (truthy (status info)); [eexists [_; _] | eexists [_; _; _]]; quiet.
  - unfold handle_wifi_disconnect_result. unfold_m.
    destruct (disconnecting (context (mem w))); [eexists [_; _; _] | eexists [_]]; quiet.
Qed.

Lemma net_handler_since (c : event_code) (info : info_t c) (w : world) :
  exists l, since w (exec (net_mgmt_event_handler c info) w) l.
Proof.
  destruct c; cbn [net_mgmt_event_handler info_t] in *; unfold_m;
    try (eexists [_]; quiet).
  eexists [_; _]; quiet.
Qed.

Lemma expire_since (w : world) : exists l, since w (exec k_timer_expire w) l.
Proof.
  unfold k_timer_expire, timer_timeout. unfold_m.
  destruct (timeout_timer w) as [|d period]; [exists []; apply since_refl|].
  exists [Store V_timed_out 1; Log LOG_LEVEL_DBG "Timer timed out" []].
  unfold since.
  destruct (period =? 0); cbn [snd trace mem timed_out with_timed_out];
    (split; [rewrite <- ?app_assoc; reflexivity|]);
    (split; [reflexivity|]); (split; [intros _; right; left; reflexivity | reflexivity]).
Qed.

Lemma deliver_since (e : env_event) (w : world) :
  exists l, since w (exec (deliver e) w) l.
Proof.
  destruct e as [c info | c info |]; cbn [deliver].
  - apply wifi_handler_since.
  - apply net_handler_since.
  - apply expire_since.
Qed.

Lemma deliver_all_since (batch : list env_event) :
  forall w, exists l, since w (exec (deliver_all batch) w) l.
Proof.
  induction batch as [|e batch IH]; intro w; cbn [deliver_all].
  - exists []. apply since_refl.
  - rewrite exec_bind. destruct (deliver_since e w) as [l1 H1].
    destruct (IH (exec (deliver e) w)) as [l2 H2].
    exists (l1 ++ l2). eapply since_trans; eassumption.
Qed.

Lemma sleep_since (ms : Z) (batch : list env_event) (w : world) :
  exists l, since w (exec (ei_sleep ms batch) w) l.
Proof.
  unfold ei_sleep. rewrite exec_bind.
  destruct (deliver_all_since batch (exec (emit (Sleep ms)) w)) as [l Hl].
  exists ([Sleep ms] ++ l). eapply since_trans; [|exact Hl].
  unfold_m. quiet.
Qed.

Lemma poll_since (cond : globals -> bool) (ms : Z) (sched : list (list env_event)) :
  forall w w', poll cond ms sched w = Some w' -> exists l, since w w' l.
Proof.
  induction sched as [|batch sched IH]; intros w w'; cbn [poll];
    destruct (cond (mem w)); intro Hp; try discriminate;
    try (injection Hp as <-; exists []; apply since_refl).
  destruct (sleep_since ms batch w) as [l1 H1].
  destruct (IH _ _ Hp) as [l2 H2].
  exists (l1 ++ l2). eapply since_trans; eassumption.
Qed.

(** Events other than the expiry leave the timer alone. *)
Lemma handler_keeps_timer (e : env_event) (w : world) :
  e <> TimerExpiry -> timeout_timer (exec (deliver e) w) = timeout_timer w.
Proof.
  destruct e as [c info | c info |]; intro He; [| |congruence]; cbn [deliver].
  - destruct c; cbn [wifi_mgmt_event_handler info_t] in *;
      unfold handle_wifi_scan_result, handle_wifi_scan_done,
        handle_wifi_connect_result, handle_wifi_disconnect_result;
      unfold_m; try reflexivity.
    + destruct (truthy (status info)); reflexivity.
    + destruct (truthy (status info)); reflexivity.
    + destruct (disconnecting (context (mem w))); reflexivity.
  - destruct c; reflexivity.
Qed.

Lemma expire_sets_timed_out (w : world) :
  armed_or_fired w -> timed_out (mem (exec k_timer_expire w)) = true.
Proof.
  unfold armed_or_fired, k_timer_expire, timer_timeout. unfold_m.
  intros [[d Hd] | Ht].
  - rewrite Hd. reflexivity.
  - destruct (timeout_timer w) as [|d period]; [exact Ht|].
    destruct (period =? 0); reflexivity.
Qed.

Lemma deliver_armed_or_fired (e : env_event) (w : world) :
  armed_or_fired w -> armed_or_fired (exec (deliver e) w).
Proof.
  intro H. destruct e as [c info | c info |].
  - destruct (deliver_since (WifiShellEvent c info) w) as [l (_ & _ & Hl)].
    unfold armed_or_fired in *.
    rewrite handler_keeps_timer by discriminate. rewrite Hl. tauto.
  - destruct (deliver_since (NetShellEvent c info) w) as [l (_ & _ & Hl)].
    unfold armed_or_fired in *.
    rewrite handler_keeps_timer by discriminate. rewrite Hl. tauto.
  - right. apply expire_sets_timed_out, H.
Qed.

Lemma deliver_all_keeps_timed_out (batch : list env_event) (w : world) :
  timed_out (mem w) = true -> timed_out (mem (exec (deliver_all batch) w)) = true.
Proof.
  intro H. destruct (deliver_all_since batch w) as [l (_ & _ & Hl)].
  apply Hl. left. exact H.
Qed.

Lemma firing_batch_sets_timed_out (batch : list env_event) :
  forall w, armed_or_fired w -> timer_fires batch = true ->
            timed_out (mem (exec (deliver_all batch) w)) = true.
Proof.
  induction batch as [|e batch IH]; intros w Hw Hf; [discriminate|].
  cbn [deliver_all]. rewrite exec_bind.
  destruct e as [c info | c info |]; cbn [timer_fires existsb orb] in Hf.
  - apply IH; [apply deliver_armed_or_fired, Hw | exact Hf].
  - apply IH; [apply deliver_armed_or_fired, Hw | exact Hf].
  - apply deliver_all_keeps_timed_out. cbn [deliver].
    apply expire_sets_timed_out, Hw.
Qed.

Lemma deliver_all_armed_or_fired (batch : list env_event) :
  forall w, armed_or_fired w -> armed_or_fired (exec (deliver_all batch) w).
Proof.
  induction batch as [|e batch IH]; intros w Hw; cbn [deliver_all]; [exact Hw|].
  rewrite exec_bind. apply IH, deliver_armed_or_fired, Hw.
Qed.

(** The loop of a wait ends at the latest in the sleep during which the
    timer expires. *)
Lemma poll_returns (cond : globals -> bool) (ms : Z) (sched : list (list env_event)) :
  (forall g, cond g = true -> timed_out g = false) ->
  forall w, armed_or_fired w -> existsb timer_fires sched = true ->
            exists w', poll cond ms sched w = Some w'.
Proof.
  intro Hcond. induction sched as [|batch sched IH]; intros w Hw Hex;
    [discriminate|].
  cbn [poll]. destruct (cond (mem w)) eqn:Hc; [|eexists; reflexivity].
  set (w1 := exec (ei_sleep ms batch) w).
  assert (Hw1 : armed_or_fired w1).
  { subst w1. unfold ei_sleep. rewrite exec_bind.
    apply deliver_all_armed_or_fired. exact Hw. }
  cbn [existsb] in Hex. apply orb_true_iff in Hex. destruct Hex as [Hb | Hs].
  - assert (Ht : timed_out (mem w1) = true).
    { subst w1. unfold ei_sleep. rewrite exec_bind.
      apply firing_batch_sets_timed_out; [exact Hw | exact Hb]. }
    exists w1. destruct sched as [|b' sched']; cbn [poll];
      destruct (cond (mem w1)) eqn:Hc1; try reflexivity;
      apply Hcond in Hc1; congruence.
  - apply IH; assumption.
Qed.

Section Waits.
Context {errno : Errno}.

(** Both waits are the same code up to the condition polled, the period
    and the log lines. *)
Lemma wait_shape_contract (cond : globals -> bool) (ms : Z) (msg : string)
    (fin_t fin_f : effect) :
  (forall g, cond g = true -> timed_out g = false) ->
  passive fin_t = true -> passive fin_f = true ->
  wait_contract (fun sched w =>
    match poll cond ms sched
            (exec (set_timed_out false ;;
                   k_timer_start (K_SECONDS 30) K_NO_WAIT ;;
                   LOG_DBG msg []) w) with
    | None => None
    | Some w2 =>
        Some ((k_timer_stop ;;
               t <- load timed_out ;;
               if t then emit fin_t ;; ret (- ETIMEDOUT)
               else emit fin_f ;; ret 0) w2)
    end).
Proof.
  intros Hcond Hft Hff sched w.
  set (w1 := exec (set_timed_out false ;;
                   k_timer_start (K_SECONDS 30) K_NO_WAIT ;;
                   LOG_DBG msg []) w).
  assert (Htr1 : trace w1 = trace w ++ [Store V_timed_out 0; TimerStart 30000 0;
                                        Log LOG_LEVEL_DBG msg []])
    by (subst w1; unfold_m; cbn [snd trace]; rewrite <- !app_assoc; reflexivity).
  assert (Hto1 : timed_out (mem w1) = false) by reflexivity.
  assert (Harm : armed_or_fired w1) by (left; exists 30000; reflexivity).
  clearbody w1. split.
  - intro Hex. destruct (poll_returns cond ms sched Hcond w1 Harm Hex) as [w2 ->].
    eexists (fst _), (snd _). rewrite <- surjective_pairing. reflexivity.
  - intros r w' Hret.
    destruct (poll cond ms sched w1) as [w2|] eqn:Hp; [|discriminate].
    destruct (poll_since _ _ _ _ _ Hp) as [during (Htr2 & Hpass & Hiff)].
    rewrite Hto1 in Hiff.
    injection Hret as Hret. revert Hret. unfold_m. cbn [mem].
    pose proof ETIMEDOUT_pos as Hpos. unfold Timeout, appended.
    destruct (timed_out (mem w2)) eqn:Ht2; intro Hret; injection Hret as <- <-;
      [exists msg, during, fin_t | exists msg, during, fin_f];
      cbn [trace timeout_timer mem];
      (split; [rewrite Htr2, Htr1, <- !app_assoc; reflexivity|]);
      (split; [exact Hpass|]); (split; [assumption|]);
      (split; [reflexivity|]); (split; [reflexivity|]).
    + split; [|split; [tauto | left; reflexivity]].
      split; [intros _ | reflexivity].
      destruct Hiff as [Hiff _]. destruct (Hiff eq_refl) as [H|H];
        [discriminate | exact H].
    + split; [|split; [|right; reflexivity]].
      * split; [intro; exfalso; lia|].
        intro Hin. destruct Hiff as [_ Hiff].
        specialize (Hiff (or_intror Hin)). discriminate.
      * split; [intro; exfalso; lia | intro; congruence].
Qed.

(** C8. [wait_connecting] and [wait_dhcp] both: store [timed_out = 0]
    and then start the 30 s one-shot timer before they poll; stop the timer
    before they return, on the Timeout path and on the success path alike
    (the timer is stopped in the state returned and a late expiry has no
    effect); return Timeout exactly when [timed_out] was stored during the
    polling loop, and 0 otherwise; and do return once the timer expires. *)
Theorem waits_reset_flag_and_stop_timer :
  wait_contract cmd_wifi_connecting /\ wait_contract cmd_dhcp_configured.
Proof.
  split.
  - apply (wait_shape_contract
             (fun g => connecting (context g) && negb (timed_out g)) 100
             "Waiting for connection to be established"
             (Log LOG_LEVEL_ERR "Connecting timed out" [])
             (Log LOG_LEVEL_INF "Connecting established" [])).
    + intros g Hg. apply andb_true_iff in Hg. apply negb_true_iff, Hg.
    + reflexivity.
    + reflexivity.
  - apply (wait_shape_contract
             (fun g => negb (dhcp_configured g) && negb (timed_out g)) 500
             "Waiting for DHCP to be configured"
             (Log LOG_LEVEL_ERR "DHCP configuration timed out" [])
             (Log LOG_LEVEL_WRN "DHCP configuration established" [])).
    + intros g Hg. apply andb_true_iff in Hg. apply negb_true_iff, Hg.
    + reflexivity.
    + reflexivity.
Qed.

End Waits.

(** ** Concrete runs (Zephyr's errno values) *)

(** C1 (counterexample). An empty but non-null SSID is not rejected:
    [connect("", NULL, 0)] with a stack that accepts the request returns 0,
    sets [connecting], stores the configuration in the device and issues
    the connect request with [ssid_length] 0. *)
Lemma connect_empty_ssid_accepted :
  fst (cmd_wifi_connect (fun _ => 0) (Some "") None 0 (booted (errno := zephyr_errno))) = 0
  /\ fst (cmd_wifi_connect (fun _ => 0) (Some "") None 0 (booted (errno := zephyr_errno)))
       <> InvalidArgument
  /\ connecting (context (mem (exec (cmd_wifi_connect (fun _ => 0) (Some "") None 0)
                                    (booted (errno := zephyr_errno))))) = true
  /\ wifi_config (dev (exec (cmd_wifi_connect (fun _ => 0) (Some "") None 0)
                            (booted (errno := zephyr_errno)))) = Some (Some "", None, 0)
  /\ In (NetMgmt (NET_REQUEST_WIFI_CONNECT
                    {| ssid := Some ""; ssid_length := 0; psk := None; psk_length := 0;
                       channel := 255; security := 0; mfp := WIFI_MFP_DISABLE;
                       timeout := -1 |}) 0)
        (trace (exec (cmd_wifi_connect (fun _ => 0) (Some "") None 0)
                     (booted (errno := zephyr_errno)))).
Proof.
  vm_compute. repeat split; try discriminate.
  repeat ((left; reflexivity) || right).
Qed.

(** C4 (counterexample). connect, then disconnect, both requests
    accepted and no connect-result event in between: both flags are set. *)
Lemma connect_then_disconnect_sets_both :
  exists w : world,
    run [ CallConnect (fun _ => 0) (Some "MySSID") (Some "password123") 1;
          CallDisconnect (fun _ => 0) ]
        (booted (errno := zephyr_errno)) = Some w
    /\ connecting (context (mem w)) = true
    /\ disconnecting (context (mem w)) = true.
Proof.
  eexists. split; [vm_compute; reflexivity|]. split; reflexivity.
Qed.

(** C5 (counterexample). Connected, then a second connect attempt fails:
    the failure event leaves the stale [wifi_connected = true] in place, so
    [wifi_connected] is not false after the handler ran on a non-zero
    status. *)
Lemma connect_failure_keeps_connected :
  exists w : world,
    run [ CallConnect (fun _ => 0) (Some "MySSID") (Some "password123") 1;
          Deliver (WifiShellEvent NET_EVENT_WIFI_CONNECT_RESULT {| status := 0 |});
          CallConnect (fun _ => 0) (Some "Other") (Some "wrongpassword") 1 ]
        (booted (errno := zephyr_errno)) = Some w
    /\ status {| status := 1 |} <> 0
    /\ wifi_connected (mem (exec (handle_wifi_connect_result {| status := 1 |}) w)) = true
    /\ wifi_connected (mem (exec (handle_wifi_connect_result {| status := 1 |}) w)) <> false.
Proof.
  eexists. split; [vm_compute; reflexivity|].
  vm_compute. repeat split; discriminate.
Qed.

(** The three answers of the stack to a disconnect request. *)
Lemma disconnect_outcomes_witness :
  (fst (cmd_wifi_disconnect (fun _ => -120) (booted (errno := zephyr_errno))) = 0
   /\ disconnecting (context (mem (exec (cmd_wifi_disconnect (fun _ => -120))
                                        (booted (errno := zephyr_errno))))) = false)
  /\ (fst (cmd_wifi_disconnect (fun _ => -5) (booted (errno := zephyr_errno)))
        = RequestError
      /\ disconnecting (context (mem (exec (cmd_wifi_disconnect (fun _ => -5))
                                           (booted (errno := zephyr_errno))))) = false)
  /\ (fst (cmd_wifi_disconnect (fun _ => 0) (booted (errno := zephyr_errno))) = 0
      /\ disconnecting (context (mem (exec (cmd_wifi_disconnect (fun _ => 0))
                                           (booted (errno := zephyr_errno))))) = true).
Proof.
  split; [|split].
  - destruct (disconnect_outcomes (errno := zephyr_errno) (fun _ => -120) booted)
      as (_ & H & _ & _).
    apply H. reflexivity.
  - destruct (disconnect_outcomes (errno := zephyr_errno) (fun _ => -5) booted)
      as (_ & _ & H & _).
    apply H; discriminate.
  - destruct (disconnect_outcomes (errno := zephyr_errno) (fun _ => 0) booted)
      as (_ & _ & _ & H).
    apply H. reflexivity.
Defined.

(** A refused connect request still leaves the configuration stored. *)
Lemma connect_stores_config_before_request_witness :
  fst (cmd_wifi_connect (fun _ => -5) (Some "MySSID") (Some "password123") 1
         (booted (errno := zephyr_errno))) = RequestError
  /\ wifi_config (dev (exec (cmd_wifi_connect (fun _ => -5) (Some "MySSID")
                               (Some "password123") 1)
                            (booted (errno := zephyr_errno))))
     = Some (Some "MySSID", Some "password123", 1).
Proof.
  destruct (connect_stores_config_before_request (errno := zephyr_errno)
              (fun _ => -5) "MySSID" (Some "password123") 1 booted)
    as (params & before & after & _ & _ & _ & _ & H & _).
  destruct H as (Hr & Hc & _); [discriminate|].
  split; [exact Hr | exact Hc].
Defined.

(** Already disconnected: success, and [is_connected()] answers as before. *)
Lemma disconnect_keeps_wifi_connected_witness :
  fst (cmd_wifi_disconnect (fun _ => -120) (booted (errno := zephyr_errno))) = 0
  /\ disconnecting (context (mem (exec (cmd_wifi_disconnect (fun _ => -120))
                                       (booted (errno := zephyr_errno))))) = false
  /\ fst (cmd_wifi_connected (exec (cmd_wifi_disconnect (fun _ => -120))
                                   (booted (errno := zephyr_errno))))
     = fst (cmd_wifi_connected (booted (errno := zephyr_errno))).
Proof.
  destruct (disconnect_keeps_wifi_connected (errno := zephyr_errno)) as [H _].
  destruct (H (fun _ => -120) booted) as (_ & _ & Hal).
  apply Hal. reflexivity.
Defined.

(** One wait that times out and one that succeeds. *)
Lemma waits_reset_flag_and_stop_timer_witness :
  (* the connect-result event never comes: Timeout once the timer expires *)
  (existsb timer_fires [[]; [TimerExpiry]] = true
   /\ exists r w',
        cmd_wifi_connecting [[]; [TimerExpiry]]
          (exec (cmd_wifi_connect (fun _ => 0) (Some "MySSID") (Some "password123") 1)
                (booted (errno := zephyr_errno))) = Some (r, w'))
  (* the lease is bound during the first sleep: success, timer stopped *)
  /\ (exists w',
        cmd_dhcp_configured
          [[NetShellEvent NET_EVENT_IPV4_DHCP_BOUND {| requested_ip := 3232235777 |}]]
          (booted (errno := zephyr_errno)) = Some (0, w')
        /\ timeout_timer w' = TIMER_STOPPED
        /\ exec (deliver TimerExpiry) w' = w').
Proof.
  destruct (waits_reset_flag_and_stop_timer (errno := zephyr_errno)) as [Hc Hd].
  split.
  - split; [reflexivity|].
    apply (proj1 (Hc [[]; [TimerExpiry]] _)). reflexivity.
  - destruct (cmd_dhcp_configured
                [[NetShellEvent NET_EVENT_IPV4_DHCP_BOUND {| requested_ip := 3232235777 |}]]
                (booted (errno := zephyr_errno))) as [[r w']|] eqn:E.
    + destruct (proj2 (Hd _ _) r w' E)
        as (msg & during & fin & _ & _ & _ & Hstop & Hlate & _ & _ & _).
      assert (Hr : r = 0) by (vm_compute in E; congruence).
      subst r. exists w'. repeat split; assumption.
    + vm_compute in E. discriminate.
Defined.

(** * Further properties of the module *)

(** ** Relations that every event and every wait respects *)

Section Stable.
Variable R : world -> world -> Prop.
Hypothesis R_refl : forall w, R w w.
Hypothesis R_trans : forall w1 w2 w3, R w1 w2 -> R w2 w3 -> R w1 w3.
Hypothesis R_deliver : forall e w, R w (exec (deliver e) w).
Hypothesis R_local : forall w w', wait_local w w' -> R w w'.

Lemma stable_deliver_all (batch : list env_event) :
  forall w, R w (exec (deliver_all batch) w).
Proof.
  induction batch as [|e batch IH]; intro w; cbn [deliver_all].
  - apply R_refl.
  - rewrite exec_bind. eapply R_trans; [apply R_deliver | apply IH].
Qed.

Lemma with_timed_out_same (g : globals) : with_timed_out (timed_out g) g = g.
Proof. destruct g. reflexivity. Qed.

Lemma stable_sleep (ms : Z) (batch : list env_event) (w : world) :
  R w (exec (ei_sleep ms batch) w).
Proof.
  unfold ei_sleep. rewrite exec_bind.
  eapply R_trans; [|apply stable_deliver_all].
  apply R_local. unfold_m. cbn [snd mem dev trace]. split; [|split].
  - exists (timed_out (mem w)). symmetry. apply with_timed_out_same.
  - reflexivity.
  - exists [Sleep ms]. split; reflexivity.
Qed.

Lemma stable_poll (cond : globals -> bool) (ms : Z) (sched : list (list env_event)) :
  forall w w', poll cond ms sched w = Some w' -> R w w'.
Proof.
  induction sched as [|batch sched IH]; intros w w'; cbn [poll];
    destruct (cond (mem w)); intro Hp; try discriminate;
    try (injection Hp as <-; apply R_refl).
  eapply R_trans; [apply stable_sleep | apply IH, Hp].
Qed.

Lemma stable_wait_begin (msg : string) (w : world) :
  R w (exec (set_timed_out false ;;
             k_timer_start (K_SECONDS 30) K_NO_WAIT ;;
             LOG_DBG msg []) w).
Proof.
  apply R_local. unfold_m. cbn [snd mem dev trace]. split; [|split].
  - exists false. reflexivity.
  - reflexivity.
  - eexists [_; _; _]. split; [rewrite <- !app_assoc|]; reflexivity.
Qed.

Lemma stable_wait_end {errno : Errno} (fin_t fin_f : effect) (w : world) :
  local_effect fin_t = true -> local_effect fin_f = true ->
  R w (snd ((k_timer_stop ;;
             t <- load timed_out ;;
             if t then emit fin_t ;; ret (- ETIMEDOUT)
             else emit fin_f ;; ret 0) w)).
Proof.
  intros Ht Hf. apply R_local. unfold_m. cbn [mem].
  destruct (timed_out (mem w)) eqn:Hto; cbn [snd mem dev trace];
    (split; [exists (timed_out (mem w)); symmetry; apply with_timed_out_same|]);
    (split; [reflexivity|]);
    eexists [_; _]; (split; [rewrite <- !app_assoc; reflexivity|]);
    cbn [forallb local_effect]; rewrite ?Ht, ?Hf; reflexivity.
Qed.

Lemma stable_connecting {errno : Errno} (sched : list (list env_event)) (w : world) r w' :
  cmd_wifi_connecting sched w = Some (r, w') -> R w w'.
Proof.
  unfold cmd_wifi_connecting.
  match goal with |- context [poll ?c ?ms sched ?w1] =>
    destruct (poll c ms sched w1) as [w2|] eqn:Hp end; [|discriminate].
  intro H. injection H as H.
  eapply R_trans; [apply stable_wait_begin|].
  eapply R_trans; [eapply stable_poll, Hp|].
  pose proof (stable_wait_end (Log LOG_LEVEL_ERR "Connecting timed out" [])
                (Log LOG_LEVEL_INF "Connecting established" []) w2 eq_refl eq_refl) as He.
  unfold LOG_ERR, LOG_INF in H. rewrite H in He. exact He.
Qed.

Lemma stable_dhcp_configured {errno : Errno} (sched : list (list env_event)) (w : world) r w' :
  cmd_dhcp_configured sched w = Some (r, w') -> R w w'.
Proof.
  unfold cmd_dhcp_configured.
  match goal with |- context [poll ?c ?ms sched ?w1] =>
    destruct (poll c ms sched w1) as [w2|] eqn:Hp end; [|discriminate].
  intro H. injection H as H.
  eapply R_trans; [apply stable_wait_begin|].
  eapply R_trans; [eapply stable_poll, Hp|].
  pose proof (stable_wait_end (Log LOG_LEVEL_ERR "DHCP configuration timed out" [])
                (Log LOG_LEVEL_WRN "DHCP configuration established" []) w2 eq_refl eq_refl) as He.
  unfold LOG_ERR, LOG_WRN in H. rewrite H in He. exact He.
Qed.

(** Waits, [is_connected()] and events: everything but the three
    requesting commands. *)
Lemma stable_action {errno : Errno} (a : action) (w w' : world) :
  is_command a = false -> run_action a w = Some w' -> R w w'.
Proof.
  destruct a as [stack | sched | stack ss pk sec | stack | sched | sched | | e];
    cbn [is_command run_action]; intros Hc Hrun; try discriminate.
  - eapply stable_poll, Hrun.
  - destruct (cmd_wifi_connecting sched w) as [[r w2]|] eqn:Hw; [|discriminate].
    injection Hrun as <-. eapply stable_connecting, Hw.
  - destruct (cmd_dhcp_configured sched w) as [[r w2]|] eqn:Hw; [|discriminate].
    injection Hrun as <-. eapply stable_dhcp_configured, Hw.
  - injection Hrun as <-. apply R_refl.
  - injection Hrun as <-. apply R_deliver.
Qed.

End Stable.

(** Case analysis on an event: one goal per handler branch. *)
Ltac event_cases e w :=
  let c := fresh "c" in
  let info := fresh "info" in
  destruct e as [c info | c info |]; cbn [deliver];
  [ destruct c; cbn [wifi_mgmt_event_handler info_t] in *;
    unfold handle_wifi_scan_result, handle_wifi_scan_done,
      handle_wifi_connect_result, handle_wifi_disconnect_result;
    unfold_m;
    try destruct (truthy (status info));
    try destruct (disconnecting (context (mem w))) eqn:?
  | destruct c; cbn [net_mgmt_event_handler info_t] in *; unfold_m
  | unfold k_timer_expire, timer_timeout; unfold_m;
    let d := fresh "d" in
    let period := fresh "period" in
    destruct (timeout_timer w) as [|d period] eqn:?;
    [|destruct (period =? 0)] ];
  cbn [snd fst mem dev trace timeout_timer].

Lemma requests_app (l1 l2 : list effect) :
  requests (l1 ++ l2) = requests l1 ++ requests l2.
Proof. unfold requests. apply flat_map_app. Qed.

Lemma requests_local (l : list effect) :
  forallb local_effect l = true -> requests l = [].
Proof.
  induction l as [|e l IH]; [reflexivity|]. cbn [forallb]. intro H.
  apply andb_true_iff in H. destruct H as [He Hl].
  destruct e; try discriminate; cbn; apply IH, Hl.
Qed.

(** Events only store to the module's variables and log. *)
Lemma deliver_local (e : env_event) (w : world) :
  dev (exec (deliver e) w) = dev w
  /\ exists l, trace (exec (deliver e) w) = trace w ++ l
               /\ forallb local_effect l = true.
Proof.
  event_cases e w; (split; [reflexivity|]);
    try (exists []; split; [symmetry; apply app_nil_r | reflexivity]);
    try (eexists [_]; split; [reflexivity | reflexivity]);
    try (eexists [_; _]; split; [rewrite <- !app_assoc; reflexivity | reflexivity]);
    try (eexists [_; _; _]; split; [rewrite <- !app_assoc; reflexivity | reflexivity]).
Qed.

Lemma deliver_dev (e : env_event) (w : world) : dev (exec (deliver e) w) = dev w.
Proof. apply deliver_local. Qed.

Lemma deliver_requests (e : env_event) (w : world) :
  requests (trace (exec (deliver e) w)) = requests (trace w).
Proof.
  destruct (deliver_local e w) as (_ & l & -> & Hl).
  rewrite requests_app, (requests_local l Hl). apply app_nil_r.
Qed.

Lemma deliver_dhcp_kept (e : env_event) (w : world) :
  dhcp_configured (mem w) = true -> dhcp_configured (mem (exec (deliver e) w)) = true.
Proof. event_cases e w; cbn; auto. Qed.

Lemma uint32_range (z : Z) : 0 <= uint32 z < 2 ^ 32.
Proof. unfold uint32. apply Z.mod_pos_bound. reflexivity. Qed.

Lemma deliver_in_range (e : env_event) (w : world) :
  in_range (mem w) -> in_range (mem (exec (deliver e) w)).
Proof.
  unfold in_range.
  event_cases e w; cbn [scan_result scan_running with_scan_result with_scan_running
                          with_connecting with_disconnecting with_wifi_connected
                          with_dhcp_configured with_timed_out];
    intros [Hr Hs]; try (split; assumption);
    try (split; [apply uint32_range | assumption]);
    try (split; [lia | left; reflexivity]).
Qed.

Lemma deliver_connected_kept (e : env_event) (w : world) :
  disconnecting (context (mem w)) = false /\ wifi_connected (mem w) = true ->
  disconnecting (context (mem (exec (deliver e) w))) = false
  /\ wifi_connected (mem (exec (deliver e) w)) = true.
Proof.
  event_cases e w; cbn; intros [Hd Hc]; try (split; assumption);
    try (split; [assumption | reflexivity]); congruence.
Qed.

Lemma deliver_timer_stopped (e : env_event) (w : world) :
  timeout_timer w = TIMER_STOPPED -> timeout_timer (exec (deliver e) w) = TIMER_STOPPED.
Proof.
  intro H. destruct e as [c info | c info |].
  - rewrite handler_keeps_timer by discriminate. exact H.
  - rewrite handler_keeps_timer by discriminate. exact H.
  - cbn [deliver]. unfold k_timer_expire. unfold_m. rewrite H. exact H.
Qed.

(** ** Invariants and accounting along histories *)

Lemma run_preserves {errno : Errno} (ok : action -> bool) (P : world -> Prop) :
  (forall a w w', ok a = true -> P w -> run_action a w = Some w' -> P w') ->
  forall acts w w', forallb ok acts = true -> P w -> run acts w = Some w' -> P w'.
Proof.
  intros Hstep. induction acts as [|a acts IH]; intros w w' Hok HP Hrun;
    cbn [run forallb] in *.
  - injection Hrun as <-. exact HP.
  - apply andb_true_iff in Hok. destruct Hok as [Ha Hacts].
    destruct (run_action a w) as [w1|] eqn:Hact; [|discriminate].
    eapply IH; [exact Hacts | | exact Hrun]. eapply Hstep; eassumption.
Qed.

Lemma forallb_true {A} (l : list A) : forallb (fun _ => true) l = true.
Proof. induction l; [reflexivity | assumption]. Qed.

Section Accounting.
Context {errno : Errno}.

Lemma wait_local_mem (w w' : world) (f : globals -> bool) :
  (forall b g, f (with_timed_out b g) = f g) ->
  wait_local w w' -> f (mem w') = f (mem w).
Proof. intros Hf ((b & ->) & _). apply Hf. Qed.

Lemma command_mem_frame (a : action) (w w' : world) :
  is_command a = true -> run_action a w = Some w' ->
  dhcp_configured (mem w') = dhcp_configured (mem w)
  /\ wifi_connected (mem w') = wifi_connected (mem w)
  /\ scan_result (mem w') = scan_result (mem w)
  /\ timed_out (mem w') = timed_out (mem w)
  /\ timeout_timer w' = timeout_timer w.
Proof.
  destruct a as [stack | sched | stack ss pk sec | stack | sched | sched | | e];
    cbn [is_command run_action]; intros Hc Hrun; try discriminate;
    injection Hrun as <-.
  - unfold cmd_wifi_scan. unfold_m.
    destruct (truthy (stack NET_REQUEST_WIFI_SCAN)); repeat split.
  - destruct ss as [s|]; [|repeat split].
    unfold cmd_wifi_connect. unfold_m.
    match goal with |- context [truthy ?x] => destruct (truthy x) end; repeat split.
  - unfold cmd_wifi_disconnect. unfold_m.
    destruct (truthy (stack NET_REQUEST_WIFI_DISCONNECT));
      [destruct (stack NET_REQUEST_WIFI_DISCONNECT =? - EALREADY)|]; repeat split.
Qed.

(** The stack sees exactly one request per requesting command. *)
Lemma run_action_requests (a : action) (w w' : world) :
  run_action a w = Some w' ->
  requests (trace w') = requests (trace w) ++ requests_of a.
Proof.
  destruct (is_command a) eqn:Hc.
  - destruct a as [stack | sched | stack ss pk sec | stack | sched | sched | | e];
      try discriminate; cbn [run_action requests_of]; intro Hrun;
      injection Hrun as <-.
    + unfold cmd_wifi_scan. unfold_m.
      destruct (truthy (stack NET_REQUEST_WIFI_SCAN)); cbn [snd trace];
        rewrite !requests_app; cbn [requests flat_map app];
        rewrite ?app_nil_r; reflexivity.
    + destruct ss as [s|]; [|cbn; symmetry; apply app_nil_r].
      unfold cmd_wifi_connect. unfold_m.
      match goal with |- context [truthy ?x] => destruct (truthy x) end;
        cbn [snd trace]; rewrite !requests_app; cbn [requests flat_map app];
        rewrite ?app_nil_r; destruct pk; reflexivity.
    + unfold cmd_wifi_disconnect. unfold_m.
      destruct (truthy (stack NET_REQUEST_WIFI_DISCONNECT));
        [destruct (stack NET_REQUEST_WIFI_DISCONNECT =? - EALREADY)|];
        cbn [snd trace]; rewrite !requests_app; cbn [requests flat_map app];
        rewrite ?app_nil_r; reflexivity.
  - intro Hrun.
    assert (Hreq : requests (trace w') = requests (trace w)).
    { revert Hrun. apply (stable_action
        (fun w w' => requests (trace w') = requests (trace w))); trivial.
      - intros w1 w2 w3 H12 H23. congruence.
      - intros e w1. apply deliver_requests.
      - intros w1 w2 (_ & _ & l & -> & Hl).
        rewrite requests_app, (requests_local l Hl). apply app_nil_r. }
    rewrite Hreq. destruct a; try discriminate; symmetry; apply app_nil_r.
Qed.

Lemma run_action_config (a : action) (w w' : world) :
  run_action a w = Some w' ->
  wifi_config (dev w') = config_after [a] (wifi_config (dev w)).
Proof.
  destruct (is_command a) eqn:Hc.
  - destruct a as [stack | sched | stack ss pk sec | stack | sched | sched | | e];
      try discriminate; cbn [run_action config_after fold_left]; intro Hrun;
      injection Hrun as <-.
    + unfold cmd_wifi_scan. unfold_m.
      destruct (truthy (stack NET_REQUEST_WIFI_SCAN)); reflexivity.
    + destruct ss as [s|]; [|reflexivity].
      unfold cmd_wifi_connect. unfold_m.
      match goal with |- context [truthy ?x] => destruct (truthy x) end; reflexivity.
    + unfold cmd_wifi_disconnect. unfold_m.
      destruct (truthy (stack NET_REQUEST_WIFI_DISCONNECT));
        [destruct (stack NET_REQUEST_WIFI_DISCONNECT =? - EALREADY)|]; reflexivity.
  - intro Hrun.
    assert (Hdev : dev w' = dev w).
    { revert Hrun. apply (stable_action (fun w w' => dev w' = dev w)); trivial.
      - intros w1 w2 w3 H12 H23. congruence.
      - intros e w1. apply deliver_dev.
      - intros w1 w2 (_ & Hd & _). exact Hd. }
    rewrite Hdev. destruct a; try discriminate; reflexivity.
Qed.

Lemma command_scan_running (a : action) (w w' : world) :
  is_command a = true -> run_action a w = Some w' ->
  scan_running (mem w') = scan_running (mem w) \/ scan_running (mem w') = 1.
Proof.
  destruct a as [stack | sched | stack ss pk sec | stack | sched | sched | | e];
    cbn [is_command run_action]; intros Hc Hrun; try discriminate;
    injection Hrun as <-.
  - right. unfold cmd_wifi_scan. unfold_m.
    destruct (truthy (stack NET_REQUEST_WIFI_SCAN)); reflexivity.
  - left. destruct ss as [s|]; [|reflexivity].
    unfold cmd_wifi_connect. unfold_m.
    match goal with |- context [truthy ?x] => destruct (truthy x) end; reflexivity.
  - left. unfold cmd_wifi_disconnect. unfold_m.
    destruct (truthy (stack NET_REQUEST_WIFI_DISCONNECT));
      [destruct (stack NET_REQUEST_WIFI_DISCONNECT =? - EALREADY)|]; reflexivity.
Qed.

Lemma command_keeps_disconnecting (a : action) (w w' : world) :
  is_command a = true -> is_disconnect_call a = false ->
  run_action a w = Some w' ->
  disconnecting (context (mem w')) = disconnecting (context (mem w)).
Proof.
  destruct a as [stack | sched | stack ss pk sec | stack | sched | sched | | e];
    cbn [is_command is_disconnect_call run_action]; intros Hc Hd Hrun;
    try discriminate; injection Hrun as <-.
  - unfold cmd_wifi_scan. unfold_m.
    destruct (truthy (stack NET_REQUEST_WIFI_SCAN)); reflexivity.
  - destruct ss as [s|]; [|reflexivity].
    unfold cmd_wifi_connect. unfold_m.
    match goal with |- context [truthy ?x] => destruct (truthy x) end; reflexivity.
Qed.

Lemma deliver_all_timer_stopped (batch : list env_event) :
  forall w, timeout_timer w = TIMER_STOPPED ->
            timeout_timer (exec (deliver_all batch) w) = TIMER_STOPPED.
Proof.
  induction batch as [|e batch IH]; intros w Hw; cbn [deliver_all]; [exact Hw|].
  rewrite exec_bind. apply IH, deliver_timer_stopped, Hw.
Qed.

Lemma poll_timer_stopped (cond : globals -> bool) (ms : Z)
    (sched : list (list env_event)) :
  forall w w', poll cond ms sched w = Some w' ->
               timeout_timer w = TIMER_STOPPED -> timeout_timer w' = TIMER_STOPPED.
Proof.
  induction sched as [|batch sched IH]; intros w w'; cbn [poll];
    destruct (cond (mem w)); intros Hp Hw; try discriminate;
    try (injection Hp as <-; exact Hw).
  apply (IH _ _ Hp). unfold ei_sleep. rewrite exec_bind.
  apply deliver_all_timer_stopped. exact Hw.
Qed.

Lemma wait_stops_timer (a : action) (w w' : world) :
  run_action a w = Some w' -> timeout_timer w = TIMER_STOPPED ->
  timeout_timer w' = TIMER_STOPPED.
Proof.
  destruct (is_command a) eqn:Hc.
  - intros Hrun Hw. destruct (command_mem_frame a w w' Hc Hrun) as (_ & _ & _ & _ & ->).
    exact Hw.
  - destruct a as [stack | sched | stack ss pk sec | stack | sched | sched | | e];
      try discriminate; cbn [run_action]; intros Hrun Hw.
    + eapply poll_timer_stopped; eassumption.
    + unfold cmd_wifi_connecting in Hrun.
      match type of Hrun with context [poll ?c ?ms sched ?w1] =>
        destruct (poll c ms sched w1) as [w2|]; [|discriminate] end.
      revert Hrun. unfold_m. cbn [option_map mem].
      destruct (timed_out (mem w2)); intro H; injection H as <-; reflexivity.
    + unfold cmd_dhcp_configured in Hrun.
      match type of Hrun with context [poll ?c ?ms sched ?w1] =>
        destruct (poll c ms sched w1) as [w2|]; [|discriminate] end.
      revert Hrun. unfold_m. cbn [option_map mem].
      destruct (timed_out (mem w2)); intro H; injection H as <-; reflexivity.
    + injection Hrun as <-. exact Hw.
    + injection Hrun as <-. apply deliver_timer_stopped, Hw.
Qed.

(** X1. The requests the stack receives are exactly those of the
    commands of the history, in call order: one scan request per [scan()],
    one connect request (built from the arguments) per [connect] with a
    non-null SSID, one disconnect request per [disconnect()].  Waits,
    [is_connected()], event handlers and the timer callback issue none. *)
Theorem stack_receives_the_commands_requests :
  forall (acts : list action) (w w' : world),
    run acts w = Some w' ->
    requests (trace w') = requests (trace w) ++ flat_map requests_of acts.
Proof.
  induction acts as [|a acts IH]; intros w w' Hrun; cbn [run flat_map] in *.
  - injection Hrun as <-. symmetry. apply app_nil_r.
  - destruct (run_action a w) as [w1|] eqn:Hact; [|discriminate].
    rewrite (IH _ _ Hrun), (run_action_requests _ _ _ Hact). apply eq_sym, app_assoc.
Qed.

(** X2. The device's stored Wi-Fi configuration is, after any
    history, the argument triple of the last [connect] call with a
    non-null SSID (whether or not its request was accepted), and the
    initial configuration if there was none: nothing else writes it. *)
Theorem stored_config_is_last_connect :
  forall (acts : list action) (w w' : world),
    run acts w = Some w' ->
    wifi_config (dev w') = config_after acts (wifi_config (dev w)).
Proof.
  induction acts as [|a acts IH]; intros w w' Hrun; cbn [run] in *.
  - injection Hrun as <-. reflexivity.
  - destruct (run_action a w) as [w1|] eqn:Hact; [|discriminate].
    rewrite (IH _ _ Hrun), (run_action_config _ _ _ Hact). reflexivity.
Qed.

(** X3. Between commands the shared timer is never armed: in every
    state reached from boot the timer is stopped, so an expiry delivered
    outside a wait changes nothing. *)
Theorem timer_stopped_between_commands :
  forall (acts : list action) (w : world),
    run acts booted = Some w ->
    timeout_timer w = TIMER_STOPPED /\ exec (deliver TimerExpiry) w = w.
Proof.
  intros acts w Hrun.
  assert (Hs : timeout_timer w = TIMER_STOPPED).
  { apply (run_preserves (fun _ => true)
             (fun w => timeout_timer w = TIMER_STOPPED)
             (fun a w1 w2 _ Hw Hact => wait_stops_timer a w1 w2 Hact Hw)
             acts booted w (forallb_true acts) eq_refl Hrun). }
  split; [exact Hs|].
  cbn [deliver]. unfold k_timer_expire. unfold_m. rewrite Hs. reflexivity.
Qed.

(** X4. The two scan variables stay within what the code writes: in
    every state reached from boot the result counter is a 32-bit value and
    [scan_running] is 0 or 1. *)
Theorem scan_variables_in_range :
  forall (acts : list action) (w : world),
    run acts booted = Some w ->
    0 <= scan_result (mem w) < 2 ^ 32
    /\ (scan_running (mem w) = 0 \/ scan_running (mem w) = 1).
Proof.
  intros acts w Hrun.
  apply (run_preserves (fun _ => true) (fun w => in_range (mem w)))
    with (acts := acts) (w := booted); trivial.
  - intros a w1 w2 _ HP Hact. destruct (is_command a) eqn:Hc.
    + destruct (command_mem_frame a w1 w2 Hc Hact) as (_ & _ & Hr & _).
      destruct (command_scan_running a w1 w2 Hc Hact) as [Hs | Hs];
        unfold in_range in *; rewrite Hr, Hs; tauto.
    + revert HP. revert Hact.
      apply (stable_action (fun w w' => in_range (mem w) -> in_range (mem w')));
        trivial; try solve [intros; tauto];
        try (intros e w0; apply deliver_in_range);
        try (intros w0 w0' ((b & ->) & _); trivial).
  - apply forallb_true.
  - split; [split; [reflexivity | reflexivity] | left; reflexivity].
Qed.

(** X5. [dhcp_configured] is never cleared: once a lease was bound it
    stays set through every later command and event (disconnects
    included), and every later [wait_dhcp] returns 0 at once, without
    sleeping. *)
Theorem dhcp_configured_is_sticky :
  forall (acts : list action) (w w' : world),
    dhcp_configured (mem w) = true ->
    run acts w = Some w' ->
    dhcp_configured (mem w') = true
    /\ forall sched, exists w'',
         cmd_dhcp_configured sched w' = Some (0, w'')
         /\ appended w' w''
              [Store V_timed_out 0; TimerStart 30000 0;
               Log LOG_LEVEL_DBG "Waiting for DHCP to be configured" [];
               TimerStop;
               Log LOG_LEVEL_WRN "DHCP configuration established" []].
Proof.
  intros acts w w' Hw Hrun.
  assert (Hw' : dhcp_configured (mem w') = true).
  { apply (run_preserves (fun _ => true) (fun w => dhcp_configured (mem w) = true))
      with (acts := acts) (w := w); trivial; [|apply forallb_true].
    intros a w1 w2 _ HP Hact. destruct (is_command a) eqn:Hc.
    - destruct (command_mem_frame a w1 w2 Hc Hact) as (-> & _). exact HP.
    - revert HP. revert Hact.
      apply (stable_action (fun w w' => dhcp_configured (mem w) = true ->
                                        dhcp_configured (mem w') = true));
        trivial; try solve [intros; tauto];
        try (intros e w0; apply deliver_dhcp_kept);
        try (intros w0 w0' ((b & ->) & _); trivial). }
  split; [exact Hw'|]. intro sched. unfold cmd_dhcp_configured, appended.
  unfold_m. cbn [snd mem]. eexists. split.
  - destruct sched; cbn [poll mem with_timed_out dhcp_configured timed_out];
      rewrite Hw'; cbn [negb andb]; reflexivity.
  - cbn [trace]. rewrite <- !app_assoc. reflexivity.
Qed.

(** X6. Once connected, [is_connected()] stays true until the
    application itself calls [disconnect()]: from a state with
    [wifi_connected] set and no disconnect pending, no history without a
    [disconnect()] call clears it, whatever events the stack delivers
    (failed connect results and unsolicited disconnects included). *)
Theorem connected_until_disconnect_called :
  forall (acts : list action) (w w' : world),
    forallb (fun a => negb (is_disconnect_call a)) acts = true ->
    disconnecting (context (mem w)) = false ->
    wifi_connected (mem w) = true ->
    run acts w = Some w' ->
    fst (cmd_wifi_connected w') = true
    /\ disconnecting (context (mem w')) = false.
Proof.
  intros acts w w' Hok Hd Hc Hrun.
  cut (disconnecting (context (mem w')) = false /\ wifi_connected (mem w') = true).
  { intros [H1 H2]. split; [exact H2 | exact H1]. }
  apply (run_preserves (fun a => negb (is_disconnect_call a))
           (fun w => disconnecting (context (mem w)) = false
                     /\ wifi_connected (mem w) = true))
    with (acts := acts) (w := w); trivial; [|split; assumption].
  intros a w1 w2 Hna HP Hact. apply negb_true_iff in Hna.
  destruct (is_command a) eqn:Hcmd.
  - destruct (command_mem_frame a w1 w2 Hcmd Hact) as (_ & -> & _).
    rewrite (command_keeps_disconnecting a w1 w2 Hcmd Hna Hact). exact HP.
  - revert HP. revert Hact.
    apply (stable_action
             (fun w w' => disconnecting (context (mem w)) = false
                          /\ wifi_connected (mem w) = true ->
                          disconnecting (context (mem w')) = false
                          /\ wifi_connected (mem w') = true));
      trivial; try solve [intros; tauto];
      try (intros e w0; apply deliver_connected_kept);
      try (intros w0 w0' ((b & ->) & _); trivial).
Qed.

End Accounting.

(** ** What ends a wait, and what does not *)

Lemma poll_exit (cond : globals -> bool) (ms : Z) (sched : list (list env_event)) :
  forall w w', poll cond ms sched w = Some w' -> cond (mem w') = false.
Proof.
  induction sched as [|batch sched IH]; intros w w'; cbn [poll];
    destruct (cond (mem w)) eqn:Hc; intro Hp; try discriminate;
    try (injection Hp as <-; exact Hc).
  eapply IH, Hp.
Qed.

Lemma poll_idle (cond : globals -> bool) (ms : Z) (sched : list (list env_event))
    (w : world) :
  cond (mem w) = false -> poll cond ms sched w = Some w.
Proof. intro H. destruct sched; cbn [poll]; rewrite H; reflexivity. Qed.

(** A field that the permitted events leave alone is left alone by whole
    batches and by the sleep around them. *)
Lemma sleep_keeps {A} (f : globals -> A) (ok : env_event -> bool) :
  (forall e w, ok e = true -> f (mem (exec (deliver e) w)) = f (mem w)) ->
  forall ms batch w, forallb ok batch = true ->
                     f (mem (exec (ei_sleep ms batch) w)) = f (mem w).
Proof.
  intros Hstep ms batch w Hb. unfold ei_sleep. rewrite exec_bind.
  change (f (mem w)) with (f (mem (exec (emit (Sleep ms)) w))).
  generalize (exec (emit (Sleep ms)) w). clear w.
  induction batch as [|e batch IH]; intro w; cbn [deliver_all]; [reflexivity|].
  cbn [forallb] in Hb. apply andb_true_iff in Hb. destruct Hb as [He Hb].
  rewrite exec_bind, (IH Hb). apply Hstep, He.
Qed.

Lemma poll_keeps {A} (f : globals -> A) (ok : env_event -> bool) :
  (forall e w, ok e = true -> f (mem (exec (deliver e) w)) = f (mem w)) ->
  forall cond ms sched w w',
    forallb (forallb ok) sched = true ->
    poll cond ms sched w = Some w' -> f (mem w') = f (mem w).
Proof.
  intros Hstep cond ms. induction sched as [|batch sched IH]; intros w w' Hs;
    cbn [poll]; destruct (cond (mem w)); intro Hp; try discriminate;
    try (injection Hp as <-; reflexivity).
  cbn [forallb] in Hs. apply andb_true_iff in Hs. destruct Hs as [Hb Hs].
  rewrite (IH _ _ Hs Hp). apply (sleep_keeps f ok Hstep), Hb.
Qed.

Lemma other_events_keep_scan_running (e : env_event) (w : world) :
  negb (is_scan_done e) = true ->
  scan_running (mem (exec (deliver e) w)) = scan_running (mem w).
Proof. intro H. event_cases e w; try discriminate; reflexivity. Qed.

Lemma other_events_keep_connecting (e : env_event) (w : world) :
  negb (is_connect_result e) = true ->
  connecting (context (mem (exec (deliver e) w))) = connecting (context (mem w)).
Proof. intro H. event_cases e w; try discriminate; reflexivity. Qed.

Lemma other_events_keep_timed_out (e : env_event) (w : world) :
  negb (is_timer_expiry e) = true ->
  timed_out (mem (exec (deliver e) w)) = timed_out (mem w).
Proof. intro H. event_cases e w; try discriminate; reflexivity. Qed.

Lemma events_keep_scan_idle (e : env_event) (w : world) :
  scan_running (mem w) = 0 -> scan_running (mem (exec (deliver e) w)) = 0.
Proof. intro H. event_cases e w; cbn; auto. Qed.

Lemma batch_keeps_scan_idle (batch : list env_event) :
  forall w, scan_running (mem w) = 0 ->
            scan_running (mem (exec (deliver_all batch) w)) = 0.
Proof.
  induction batch as [|e batch IH]; intros w Hw; cbn [deliver_all]; [exact Hw|].
  rewrite exec_bind. apply IH, events_keep_scan_idle, Hw.
Qed.

Lemma scan_done_batch_clears (batch : list env_event) :
  forall w, existsb is_scan_done batch = true ->
            scan_running (mem (exec (deliver_all batch) w)) = 0.
Proof.
  induction batch as [|e batch IH]; intros w Hb; [discriminate|].
  cbn [deliver_all existsb] in *. rewrite exec_bind.
  destruct (is_scan_done e) eqn:He.
  - apply batch_keeps_scan_idle.
    destruct e as [c info | c info |]; try discriminate;
      destruct c; try discriminate.
    cbn [deliver wifi_mgmt_event_handler]. unfold handle_wifi_scan_done. unfold_m.
    destruct (truthy (status info)); reflexivity.
  - apply IH, Hb.
Qed.

Lemma connect_result_batch_clears (batch : list env_event) :
  forall w, existsb is_connect_result batch = true ->
            connecting (context (mem (exec (deliver_all batch) w))) = false.
Proof.
  induction batch as [|e batch IH]; intros w Hb; [discriminate|].
  cbn [deliver_all existsb] in *. rewrite exec_bind.
  destruct (is_connect_result e) eqn:He.
  - destruct (deliver_all_not_raised batch (exec (deliver e) w)) as [Hc _].
    destruct (connecting (context (mem (exec (deliver_all batch) (exec (deliver e) w)))));
      [|reflexivity].
    rewrite <- (Hc eq_refl).
    destruct e as [c info | c info |]; try discriminate;
      destruct c; try discriminate.
    cbn [deliver wifi_mgmt_event_handler]. unfold handle_wifi_connect_result. unfold_m.
    destruct (truthy (status info)); reflexivity.
  - apply IH, Hb.
Qed.

Lemma batch_keeps_dhcp (batch : list env_event) :
  forall w, dhcp_configured (mem w) = true ->
            dhcp_configured (mem (exec (deliver_all batch) w)) = true.
Proof.
  induction batch as [|e batch IH]; intros w Hw; cbn [deliver_all]; [exact Hw|].
  rewrite exec_bind. apply IH, deliver_dhcp_kept, Hw.
Qed.

Lemma dhcp_bound_batch_sets (batch : list env_event) :
  forall w, existsb is_dhcp_bound batch = true ->
            dhcp_configured (mem (exec (deliver_all batch) w)) = true.
Proof.
  induction batch as [|e batch IH]; intros w Hb; [discriminate|].
  cbn [deliver_all existsb] in *. rewrite exec_bind.
  destruct (is_dhcp_bound e) eqn:He.
  - apply batch_keeps_dhcp.
    destruct e as [c info | c info |]; try discriminate;
      destruct c; try discriminate. reflexivity.
  - apply IH, Hb.
Qed.

Lemma timer_fires_false (batch : list env_event) :
  timer_fires batch = false ->
  forallb (fun e => negb (is_timer_expiry e)) batch = true.
Proof.
  unfold timer_fires. induction batch as [|e batch IH]; [reflexivity|].
  cbn [existsb forallb]. intro H. apply orb_false_iff in H. destruct H as [He Hb].
  rewrite (IH Hb), andb_true_r. destruct e; try reflexivity. discriminate.
Qed.

(** The loop of a wait on [c g && !timed_out g] ends with [timed_out]
    clear when, before any expiry of the timer, a batch makes [c] false. *)
Lemma poll_until (c : globals -> bool) (ms : Z) (batch : list env_event)
    (post : list (list env_event)) :
  (forall w0, c (mem (exec (deliver_all batch) w0)) = false) ->
  timer_fires batch = false ->
  forall pre w,
    forallb (fun b => negb (timer_fires b)) pre = true ->
    timed_out (mem w) = false ->
    exists w', poll (fun g => c g && negb (timed_out g)) ms
                 (pre ++ batch :: post) w = Some w'
               /\ timed_out (mem w') = false /\ c (mem w') = false.
Proof.
  intros Hc Hb.
  assert (Hidle : forall sched w, timed_out (mem w) = false ->
            c (mem w) && negb (timed_out (mem w)) = false ->
            exists w', poll (fun g => c g && negb (timed_out g)) ms sched w = Some w'
                       /\ timed_out (mem w') = false /\ c (mem w') = false).
  { intros sched w Ht Hcond. exists w. rewrite poll_idle by exact Hcond.
    rewrite Ht in Hcond. rewrite andb_true_r in Hcond. auto. }
  assert (Hquiet : forall b w, timer_fires b = false -> timed_out (mem w) = false ->
            timed_out (mem (exec (ei_sleep ms b) w)) = false).
  { intros b w Hf Ht. rewrite <- Ht.
    apply (sleep_keeps timed_out (fun e => negb (is_timer_expiry e))
             other_events_keep_timed_out), timer_fires_false, Hf. }
  induction pre as [|b pre IH]; intros w Hpre Ht; cbn [app].
  - destruct (c (mem w) && negb (timed_out (mem w))) eqn:Hcond;
      [|apply Hidle; assumption].
    cbn [poll]. rewrite Hcond. apply Hidle.
    + apply Hquiet; assumption.
    + unfold ei_sleep. rewrite exec_bind, Hc. reflexivity.
  - destruct (c (mem w) && negb (timed_out (mem w))) eqn:Hcond;
      [|apply Hidle; assumption].
    cbn [poll]. rewrite Hcond. cbn [forallb] in Hpre.
    apply andb_true_iff in Hpre. destruct Hpre as [Hfb Hpre].
    apply IH; [exact Hpre|]. apply Hquiet; [|exact Ht].
    apply negb_true_iff, Hfb.
Qed.

Lemma connect_params_built (s : string) (psk : c_string) (security : Z) :
  match psk with
  | Some p =>
      {| ssid := Some s; ssid_length := uint8 (strlen s);
         psk := psk; psk_length := uint8 (strlen p);
         channel := WIFI_CHANNEL_ANY;
         security := security; mfp := WIFI_MFP_OPTIONAL;
         timeout := SYS_FOREVER_MS |}
  | None =>
      {| ssid := Some s; ssid_length := uint8 (strlen s);
         psk := None; psk_length := 0;
         channel := WIFI_CHANNEL_ANY;
         security := WIFI_SECURITY_TYPE_NONE; mfp := WIFI_MFP_DISABLE;
         timeout := SYS_FOREVER_MS |}
  end = connect_params s psk security.
Proof. destruct psk; reflexivity. Qed.

Section WaitOutcomes.
Context {errno : Errno}.

Lemma poll_blocked (ms : Z) (sched : list (list env_event)) :
  forall w, truthy (scan_running (mem w)) = true ->
            forallb (forallb (fun e => negb (is_scan_done e))) sched = true ->
            poll (fun g => truthy (scan_running g)) ms sched w = None.
Proof.
  induction sched as [|batch sched IH]; intros w Hw Hs; cbn [poll]; rewrite Hw;
    [reflexivity|].
  cbn [forallb] in Hs. apply andb_true_iff in Hs. destruct Hs as [Hb Hs].
  apply IH; [|exact Hs].
  rewrite (sleep_keeps scan_running (fun e => negb (is_scan_done e))
             other_events_keep_scan_running ms batch w Hb).
  exact Hw.
Qed.

(** X7. [wait_scan_done] has no timeout: while a scan is marked
    running it returns only through a scan-done event.  Under a schedule
    without one it never returns, whatever else happens (timer expiries
    included); this is also so right after [scan()], even when the stack
    refused the scan request. *)
Theorem scan_wait_blocks_without_scan_done :
  forall (sched : list (list env_event)) (w : world),
    forallb (forallb (fun e => negb (is_scan_done e))) sched = true ->
    (scan_running (mem w) <> 0 -> cmd_wifi_scan_done sched w = None)
    /\ forall stack, cmd_wifi_scan_done sched (exec (cmd_wifi_scan stack) w) = None.
Proof.
  intros sched w Hs. split.
  - intro Hw. apply poll_blocked; [apply truthy_spec, Hw | exact Hs].
  - intro stack. apply poll_blocked; [|exact Hs].
    unfold cmd_wifi_scan. unfold_m.
    destruct (truthy (stack NET_REQUEST_WIFI_SCAN)); reflexivity.
Qed.

(** X8. [wait_scan_done] returns at once, without sleeping and without
    any effect, when no scan is marked running; otherwise it returns, with
    [scan_running] cleared, as soon as the schedule delivers a scan-done
    event. *)
Theorem scan_wait_returns_on_scan_done :
  forall (sched : list (list env_event)) (w : world),
    (scan_running (mem w) = 0 -> cmd_wifi_scan_done sched w = Some w)
    /\ (existsb (existsb is_scan_done) sched = true ->
        exists w', cmd_wifi_scan_done sched w = Some w'
                   /\ scan_running (mem w') = 0).
Proof.
  intros sched w. unfold cmd_wifi_scan_done. split.
  - intro Hw. apply poll_idle. rewrite Hw. reflexivity.
  - revert w. induction sched as [|batch sched IH]; intros w Hs; [discriminate|].
    cbn [poll existsb] in *.
    destruct (truthy (scan_running (mem w))) eqn:Hw.
    + destruct (existsb is_scan_done batch) eqn:Hb.
      * exists (exec (ei_sleep 100 batch) w).
        assert (H0 : scan_running (mem (exec (ei_sleep 100 batch) w)) = 0)
          by (unfold ei_sleep; rewrite exec_bind; apply scan_done_batch_clears, Hb).
        split; [|exact H0]. apply poll_idle. rewrite H0. reflexivity.
      * apply IH, Hs.
    + exists w. split; [reflexivity|]. apply truthy_false, Hw.
Qed.

(** X9. [wait_connecting] returns 0 at once when no connect is
    pending: it resets [timed_out], starts and stops the timer, never
    sleeps and changes no other state.  In particular it reports success
    right after a [connect] whose request the stack refused. *)
Theorem connecting_wait_idle_returns_success :
  forall (sched : list (list env_event)) (w : world),
    (connecting (context (mem w)) = false ->
     exists w', cmd_wifi_connecting sched w = Some (0, w')
                /\ mem w' = with_timed_out false (mem w)
                /\ dev w' = dev w
                /\ appended w w'
                     [Store V_timed_out 0; TimerStart 30000 0;
                      Log LOG_LEVEL_DBG "Waiting for connection to be established" [];
                      TimerStop;
                      Log LOG_LEVEL_INF "Connecting established" []])
    /\ forall stack s psk security,
         stack (NET_REQUEST_WIFI_CONNECT (connect_params s psk security)) <> 0 ->
         fst (cmd_wifi_connect stack (Some s) psk security w) = RequestError
         /\ exists w', cmd_wifi_connecting sched
                         (exec (cmd_wifi_connect stack (Some s) psk security) w)
                       = Some (0, w')
                       /\ fst (cmd_wifi_connected w') = wifi_connected (mem w).
Proof.
  intros sched w.
  assert (Hidle : forall w0, connecting (context (mem w0)) = false ->
            exists w', cmd_wifi_connecting sched w0 = Some (0, w')
                /\ mem w' = with_timed_out false (mem w0)
                /\ dev w' = dev w0
                /\ appended w0 w'
                     [Store V_timed_out 0; TimerStart 30000 0;
                      Log LOG_LEVEL_DBG "Waiting for connection to be established" [];
                      TimerStop;
                      Log LOG_LEVEL_INF "Connecting established" []]).
  { intros w0 Hw. unfold cmd_wifi_connecting, appended. unfold_m. cbn [snd].
    rewrite poll_idle
      by (cbn [mem with_timed_out context]; rewrite Hw; reflexivity).
    cbn [mem with_timed_out timed_out]. eexists. split; [reflexivity|].
    cbn [mem dev trace]. split; [reflexivity|]. split; [reflexivity|].
    rewrite <- !app_assoc. reflexivity. }
  split; [apply Hidle|].
  intros stack s psk security Hrc.
  pose proof (connect_params_built s psk security) as Hpar.
  assert (Hconn : fst (cmd_wifi_connect stack (Some s) psk security w) = RequestError
            /\ connecting (context (mem (exec (cmd_wifi_connect stack (Some s) psk security) w))) = false
            /\ wifi_connected (mem (exec (cmd_wifi_connect stack (Some s) psk security) w))
               = wifi_connected (mem w)).
  { unfold cmd_wifi_connect, RequestError. rewrite Hpar. unfold_m.
    apply truthy_spec in Hrc. rewrite Hrc. repeat split. }
  destruct Hconn as (Hr & Hc & Hwc). split; [exact Hr|].
  destruct (Hidle _ Hc) as (w' & Hret & Hmem & _).
  exists w'. split; [exact Hret|].
  unfold cmd_wifi_connected. unfold_m. cbn [fst]. rewrite Hmem. exact Hwc.
Qed.

(** X10. A timeout does not clear [connecting]: if the connect result
    never arrives and the timer expires, [wait_connecting] returns Timeout
    and the connect is still marked pending (so a second wait polls
    again, and a disconnect now would set both request flags). *)
Theorem timeout_leaves_connecting_set :
  forall (sched : list (list env_event)) (w : world),
    connecting (context (mem w)) = true ->
    forallb (forallb (fun e => negb (is_connect_result e))) sched = true ->
    existsb timer_fires sched = true ->
    exists w', cmd_wifi_connecting sched w = Some (Timeout, w')
               /\ connecting (context (mem w')) = true
               /\ timed_out (mem w') = true.
Proof.
  intros sched w Hw Hs Hf. unfold cmd_wifi_connecting, Timeout.
  set (w1 := exec (set_timed_out false ;;
                   k_timer_start (K_SECONDS 30) K_NO_WAIT ;;
                   LOG_DBG "Waiting for connection to be established" []) w).
  assert (Hw1 : connecting (context (mem w1)) = true) by exact Hw.
  assert (Harm : armed_or_fired w1) by (left; exists 30000; reflexivity).
  clearbody w1.
  destruct (poll_returns (fun g => connecting (context g) && negb (timed_out g))
              100 sched) with (w := w1) as [w2 Hp]; trivial.
  { intros g Hg. apply andb_true_iff in Hg. apply negb_true_iff, Hg. }
  rewrite Hp.
  assert (Hc2 : connecting (context (mem w2)) = true).
  { rewrite <- Hw1.
    apply (poll_keeps (fun g => connecting (context g))
             (fun e => negb (is_connect_result e)) other_events_keep_connecting
             _ _ _ _ _ Hs Hp). }
  assert (Ht2 : timed_out (mem w2) = true).
  { apply poll_exit in Hp. cbn beta in Hp. rewrite Hc2 in Hp.
    apply negb_false_iff. exact Hp. }
  unfold_m. cbn [mem]. rewrite Ht2. eexists. split; [reflexivity|].
  split; assumption.
Qed.

(** X11. [wait_connecting] returns 0 as soon as a connect-result event
    arrives before the timer expires, whatever the status in the event:
    success of the wait means that the attempt was resolved, not that the
    station is connected. *)
Theorem connect_result_ends_wait_with_success :
  forall (pre : list (list env_event)) (batch : list env_event)
         (post : list (list env_event)) (w : world),
    forallb (fun b => negb (timer_fires b)) (pre ++ [batch]) = true ->
    existsb is_connect_result batch = true ->
    exists w', cmd_wifi_connecting (pre ++ batch :: post) w = Some (0, w')
               /\ connecting (context (mem w')) = false
               /\ timed_out (mem w') = false.
Proof.
  intros pre batch post w Hq Hb. rewrite forallb_app in Hq.
  apply andb_true_iff in Hq. destruct Hq as [Hpre Hbt].
  cbn [forallb] in Hbt. rewrite andb_true_r in Hbt. apply negb_true_iff in Hbt.
  unfold cmd_wifi_connecting.
  edestruct (poll_until (fun g => connecting (context g)) 100 batch post)
    as (w2 & Hp & Ht & Hc);
    [ intro w0; apply connect_result_batch_clears, Hb
    | exact Hbt | exact Hpre | | ].
  2: { rewrite Hp. unfold_m. cbn [mem]. rewrite Ht. eexists.
       split; [reflexivity|]. split; assumption. }
  reflexivity.
Qed.

(** X12. [wait_dhcp] returns 0, with [dhcp_configured] set, as soon
    as a DHCP-bound event arrives before the timer expires. *)
Theorem dhcp_bound_ends_wait_with_success :
  forall (pre : list (list env_event)) (batch : list env_event)
         (post : list (list env_event)) (w : world),
    forallb (fun b => negb (timer_fires b)) (pre ++ [batch]) = true ->
    existsb is_dhcp_bound batch = true ->
    exists w', cmd_dhcp_configured (pre ++ batch :: post) w = Some (0, w')
               /\ dhcp_configured (mem w') = true
               /\ timed_out (mem w') = false.
Proof.
  intros pre batch post w Hq Hb. rewrite forallb_app in Hq.
  apply andb_true_iff in Hq. destruct Hq as [Hpre Hbt].
  cbn [forallb] in Hbt. rewrite andb_true_r in Hbt. apply negb_true_iff in Hbt.
  unfold cmd_dhcp_configured.
  edestruct (poll_until (fun g => negb (dhcp_configured g)) 500 batch post)
    as (w2 & Hp & Ht & Hc);
    [ intro w0; rewrite dhcp_bound_batch_sets by exact Hb; reflexivity
    | exact Hbt | exact Hpre | | ].
  2: { rewrite Hp. unfold_m. cbn [mem]. rewrite Ht. eexists.
       split; [reflexivity|]. split; [|exact Ht].
       apply negb_false_iff. exact Hc. }
  reflexivity.
Qed.

End WaitOutcomes.

(** ** Requests without a key, handler frames, result counting *)

(** X13. A [connect] without a key always asks for an open network:
    the request carries security type NONE, no key and MFP disabled,
    whatever [security] the caller passed, while the device records the
    caller's [security] unchanged. *)
Theorem connect_without_key_requests_open_network :
  forall {errno : Errno} (stack : net_mgmt_oracle) (s : string) (security : Z)
         (w : world),
    requests (trace (exec (cmd_wifi_connect stack (Some s) None security) w))
    = requests (trace w)
      ++ [NET_REQUEST_WIFI_CONNECT
            {| ssid := Some s; ssid_length := strlen s mod 256;
               psk := None; psk_length := 0;
               channel := 255; security := 0;
               mfp := WIFI_MFP_DISABLE; timeout := -1 |}]
    /\ wifi_config (dev (exec (cmd_wifi_connect stack (Some s) None security) w))
       = Some (Some s, None, security).
Proof.
  intros errno stack s security w. split.
  - apply (run_action_requests (CallConnect stack (Some s) None security) w).
    reflexivity.
  - apply (run_action_config (CallConnect stack (Some s) None security) w).
    reflexivity.
Qed.

(** X14. Each event callback writes only its own variables.  The
    Wi-Fi callback never writes [dhcp_configured] or [timed_out] and
    ignores TWT, raw-scan, DHCP and unknown events altogether.  The network
    callback writes nothing but [dhcp_configured], and sets it only for
    the DHCP-bound event; any other code only logs a warning.  Neither
    touches the timer or the device. *)
Theorem callbacks_write_only_their_variables :
  forall (c : event_code) (info : info_t c) (w : world),
    let ww := exec (wifi_mgmt_event_handler c info) w in
    let wn := exec (net_mgmt_event_handler c info) w in
    (dhcp_configured (mem ww) = dhcp_configured (mem w)
     /\ timed_out (mem ww) = timed_out (mem w)
     /\ timeout_timer ww = timeout_timer w
     /\ dev ww = dev w
     /\ match c with
        | NET_EVENT_WIFI_SCAN_RESULT | NET_EVENT_WIFI_SCAN_DONE
        | NET_EVENT_WIFI_CONNECT_RESULT | NET_EVENT_WIFI_DISCONNECT_RESULT => True
        | _ => ww = w
        end)
    /\ (mem wn = with_dhcp_configured
                   (match c with
                    | NET_EVENT_IPV4_DHCP_BOUND => true
                    | _ => dhcp_configured (mem w)
                    end) (mem w)
        /\ timeout_timer wn = timeout_timer w
        /\ dev wn = dev w
        /\ match c with
           | NET_EVENT_IPV4_DHCP_BOUND => True
           | _ => trace wn = trace w ++ [Log LOG_LEVEL_WRN "Unhandled event: 0x%x" [ArgEvent c]]
           end).
Proof.
  intros c info w ww wn. subst ww wn. split.
  - assert (Hw : forall w0 : world, snd (tt, w0) = w0) by reflexivity.
    destruct c; cbn [wifi_mgmt_event_handler info_t] in *;
      unfold handle_wifi_scan_result, handle_wifi_scan_done,
        handle_wifi_connect_result, handle_wifi_disconnect_result;
      unfold_m;
      try destruct (truthy (status info));
      try destruct (disconnecting (context (mem w)));
      repeat split.
  - destruct c; cbn [net_mgmt_event_handler info_t] in *; unfold_m;
      cbn [snd mem dev trace timeout_timer];
      (split; [destruct (mem w) as [ctx sr srun dh wc tout]; reflexivity|]);
      repeat split.
Qed.

Lemma with_scan_result_same (g : globals) : with_scan_result (scan_result g) g = g.
Proof. destruct g. reflexivity. Qed.

(** X15. Scan results are counted modulo 2^32: after [k] scan-result
    events the counter holds (old + k) mod 2^32 and no other variable has
    changed; nothing stores or deduplicates the results themselves. *)
Theorem scan_results_are_counted :
  forall (entries : list wifi_scan_result) (w : world),
    0 <= scan_result (mem w) < 2 ^ 32 ->
    mem (exec (deliver_all
                 (map (WifiShellEvent NET_EVENT_WIFI_SCAN_RESULT) entries)) w)
    = with_scan_result
        ((scan_result (mem w) + Z.of_nat (List.length entries)) mod 2 ^ 32) (mem w).
Proof.
  induction entries as [|entry entries IH]; intros w Hr.
  - cbn [map deliver_all List.length Z.of_nat]. rewrite Z.add_0_r, Z.mod_small by exact Hr.
    symmetry. apply with_scan_result_same.
  - cbn [map deliver_all List.length]. rewrite exec_bind.
    set (w1 := exec (deliver (WifiShellEvent NET_EVENT_WIFI_SCAN_RESULT entry)) w).
    assert (Hm1 : mem w1 = with_scan_result (uint32 (scan_result (mem w) + 1)) (mem w))
      by reflexivity.
    rewrite IH by (rewrite Hm1; apply uint32_range).
    rewrite Hm1. cbn [scan_result with_scan_result]. unfold with_scan_result, uint32.
    cbn [context scan_running dhcp_configured wifi_connected timed_out].
    rewrite Z.add_mod_idemp_l by discriminate.
    rewrite Nat2Z.inj_succ. f_equal. f_equal. lia.
Qed.

(** ** The further properties at concrete inputs (Zephyr's errno values) *)

(** The requests of the typical session. *)
Lemma stack_receives_the_commands_requests_witness :
  exists w : world,
    run typical_session (booted (errno := zephyr_errno)) = Some w
    /\ requests (trace w)
       = [ NET_REQUEST_WIFI_SCAN;
           NET_REQUEST_WIFI_CONNECT
             {| ssid := Some "MySSID"; ssid_length := 6;
                psk := Some "password123"; psk_length := 11;
                channel := 255; security := 1;
                mfp := WIFI_MFP_OPTIONAL; timeout := -1 |};
           NET_REQUEST_WIFI_DISCONNECT ].
Proof.
  destruct (run typical_session (booted (errno := zephyr_errno))) as [w|] eqn:E;
    [|vm_compute in E; discriminate].
  exists w. split; [reflexivity|].
  rewrite (stack_receives_the_commands_requests (errno := zephyr_errno)
             typical_session booted w E).
  reflexivity.
Defined.

(** The configuration stored by the typical session. *)
Lemma stored_config_is_last_connect_witness :
  exists w : world,
    run typical_session (booted (errno := zephyr_errno)) = Some w
    /\ wifi_config (dev w) = Some (Some "MySSID", Some "password123", 1).
Proof.
  destruct (run typical_session (booted (errno := zephyr_errno))) as [w|] eqn:E;
    [|vm_compute in E; discriminate].
  exists w. split; [reflexivity|].
  rewrite (stored_config_is_last_connect (errno := zephyr_errno)
             typical_session booted w E).
  reflexivity.
Defined.

(** The timer after the typical session. *)
Lemma timer_stopped_between_commands_witness :
  exists w : world,
    run typical_session (booted (errno := zephyr_errno)) = Some w
    /\ timeout_timer w = TIMER_STOPPED /\ exec (deliver TimerExpiry) w = w.
Proof.
  destruct (run typical_session (booted (errno := zephyr_errno))) as [w|] eqn:E;
    [|vm_compute in E; discriminate].
  exists w. split; [reflexivity|].
  exact (timer_stopped_between_commands (errno := zephyr_errno) typical_session w E).
Defined.

(** The scan variables after the typical session. *)
Lemma scan_variables_in_range_witness :
  exists w : world,
    run typical_session (booted (errno := zephyr_errno)) = Some w
    /\ 0 <= scan_result (mem w) < 2 ^ 32
    /\ (scan_running (mem w) = 0 \/ scan_running (mem w) = 1).
Proof.
  destruct (run typical_session (booted (errno := zephyr_errno))) as [w|] eqn:E;
    [|vm_compute in E; discriminate].
  exists w. split; [reflexivity|].
  exact (scan_variables_in_range (errno := zephyr_errno) typical_session w E).
Defined.

(** The lease flag survives the whole session that follows the lease. *)
Lemma dhcp_configured_is_sticky_witness :
  exists w : world,
    run typical_session
        (exec (deliver (NetShellEvent NET_EVENT_IPV4_DHCP_BOUND
                          {| requested_ip := 3232235777 |}))
              (booted (errno := zephyr_errno))) = Some w
    /\ dhcp_configured (mem w) = true
    /\ exists w', cmd_dhcp_configured [] w = Some (0, w').
Proof.
  destruct (run typical_session
              (exec (deliver (NetShellEvent NET_EVENT_IPV4_DHCP_BOUND
                                {| requested_ip := 3232235777 |}))
                    (booted (errno := zephyr_errno)))) as [w|] eqn:E;
    [|vm_compute in E; discriminate].
  exists w. split; [reflexivity|].
  destruct (dhcp_configured_is_sticky (errno := zephyr_errno) typical_session
              (exec (deliver (NetShellEvent NET_EVENT_IPV4_DHCP_BOUND
                                {| requested_ip := 3232235777 |}))
                    booted) w eq_refl E)
    as [Hd Hw].
  split; [exact Hd|]. destruct (Hw []) as (w' & Hret & _). exists w'. exact Hret.
Defined.

(** Connected, then a failed connect result, an unsolicited disconnect
    and a scan: still connected. *)
Lemma connected_until_disconnect_called_witness :
  exists w : world,
    run [ Deliver (WifiShellEvent NET_EVENT_WIFI_CONNECT_RESULT {| status := 1 |});
          Deliver (WifiShellEvent NET_EVENT_WIFI_DISCONNECT_RESULT {| status := 0 |});
          CallScan (fun _ => 0);
          CallConnect (fun _ => -5) (Some "Other") None 0 ]
        (exec (handle_wifi_connect_result {| status := 0 |})
              (booted (errno := zephyr_errno))) = Some w
    /\ fst (cmd_wifi_connected w) = true
    /\ disconnecting (context (mem w)) = false.
Proof.
  match goal with
  | |- exists w, run ?h ?w0 = _ /\ _ =>
      destruct (run h w0) as [w|] eqn:E; [|vm_compute in E; discriminate];
      exists w; split; [reflexivity|];
      apply (connected_until_disconnect_called (errno := zephyr_errno) h w0 w);
      [reflexivity | reflexivity | reflexivity | exact E]
  end.
Defined.

(** A refused scan, then a wait: blocked, even across a timer expiry. *)
Lemma scan_wait_blocks_without_scan_done_witness :
  cmd_wifi_scan_done [[TimerExpiry]; []]
    (exec (cmd_wifi_scan (fun _ => -5)) (booted (errno := zephyr_errno))) = None.
Proof.
  apply (scan_wait_blocks_without_scan_done (errno := zephyr_errno)
           [[TimerExpiry]; []] booted eq_refl).
Defined.

(** An accepted scan whose scan-done event comes during the second sleep. *)
Lemma scan_wait_returns_on_scan_done_witness :
  exists w' : world,
    cmd_wifi_scan_done
      [[]; [WifiShellEvent NET_EVENT_WIFI_SCAN_DONE {| status := 0 |}]]
      (exec (cmd_wifi_scan (fun _ => 0)) (booted (errno := zephyr_errno))) = Some w'
    /\ scan_running (mem w') = 0.
Proof.
  apply scan_wait_returns_on_scan_done. reflexivity.
Defined.

(** Waiting after a refused connect request. *)
Lemma connecting_wait_idle_returns_success_witness :
  fst (cmd_wifi_connect (fun _ => -5) (Some "MySSID") (Some "password123") 1
         (booted (errno := zephyr_errno))) = RequestError
  /\ exists w' : world,
       cmd_wifi_connecting []
         (exec (cmd_wifi_connect (fun _ => -5) (Some "MySSID") (Some "password123") 1)
               (booted (errno := zephyr_errno))) = Some (0, w')
       /\ fst (cmd_wifi_connected w') = wifi_connected (mem (booted (errno := zephyr_errno))).
Proof.
  apply (connecting_wait_idle_returns_success (errno := zephyr_errno) [] booted).
  discriminate.
Defined.

(** No connect result, the timer expires during the second sleep. *)
Lemma timeout_leaves_connecting_set_witness :
  exists w' : world,
    cmd_wifi_connecting [[]; [TimerExpiry]]
      (exec (cmd_wifi_connect (fun _ => 0) (Some "MySSID") (Some "password123") 1)
            (booted (errno := zephyr_errno))) = Some (Timeout, w')
    /\ connecting (context (mem w')) = true
    /\ timed_out (mem w') = true.
Proof.
  apply (timeout_leaves_connecting_set (errno := zephyr_errno)); reflexivity.
Defined.

(** A failed connect result during the second sleep ends the wait with 0. *)
Lemma connect_result_ends_wait_with_success_witness :
  exists w' : world,
    cmd_wifi_connecting
      ([[]] ++ [WifiShellEvent NET_EVENT_WIFI_CONNECT_RESULT {| status := 1 |}] :: [])
      (exec (cmd_wifi_connect (fun _ => 0) (Some "MySSID") (Some "password123") 1)
            (booted (errno := zephyr_errno))) = Some (0, w')
    /\ connecting (context (mem w')) = false
    /\ timed_out (mem w') = false.
Proof.
  apply (connect_result_ends_wait_with_success (errno := zephyr_errno)); reflexivity.
Defined.

(** The lease is bound during the first sleep. *)
Lemma dhcp_bound_ends_wait_with_success_witness :
  exists w' : world,
    cmd_dhcp_configured
      ([] ++ [NetShellEvent NET_EVENT_IPV4_DHCP_BOUND {| requested_ip := 3232235777 |}]
          :: [[TimerExpiry]])
      (booted (errno := zephyr_errno)) = Some (0, w')
    /\ dhcp_configured (mem w') = true
    /\ timed_out (mem w') = false.
Proof.
  apply (dhcp_bound_ends_wait_with_success (errno := zephyr_errno)); reflexivity.
Defined.

(** Three results from the last value of the counter: it wraps to 2. *)
Lemma scan_results_are_counted_witness :
  scan_result
    (mem (exec (deliver_all
                  (map (WifiShellEvent NET_EVENT_WIFI_SCAN_RESULT)
                       [ {| entry_ssid := "a"; entry_security := 0; entry_rssi := -70 |};
                         {| entry_ssid := "b"; entry_security := 1; entry_rssi := -60 |};
                         {| entry_ssid := "a"; entry_security := 0; entry_rssi := -70 |} ]))
               (exec (set_scan_result 4294967295) (booted (errno := zephyr_errno)))))
  = 2.
Proof.
  rewrite scan_results_are_counted; [reflexivity|].
  split; [discriminate | reflexivity].
Defined.
